(** * widgetkit: the MCP protocol dispatcher and its capability registries

    A shallow embedding of [src/lib/mcp] (errors.ts, tools.ts, prompts.ts,
    resources.ts, widget.ts, handler.ts, index.ts and
    utils/handleGetDelete.ts, utils/toJsonSchema.ts), followed by the
    properties of the dispatcher stated in the specification.

    Conventions of the embedding.
    - A JavaScript object read in property order ([Object.entries],
      [Object.values(...).find]) is an association list in that order; a
      metadata bag that is only spread and looked up is a [gmap].
    - An [async] function is the pure function from its arguments to its
      outcome: the value it resolves to, or the value it rejects with.
      A promise that never settles is not modelled.
    - Property lookups follow the prototype chain as the V8 runtime has
      it: the registries and the objects of the handler table are object
      literals, which inherit the names of [Object.prototype], and the
      handlers are arrow functions, which inherit those of
      [Function.prototype] too. What the built-in objects themselves do,
      once a method path has walked into them, is a parameter of the entry
      point.
    - Requests are well typed as [RPCRequest] declares them ([method] a
      string, [params.name] and [params.uri] strings). *)

From stdpp Require Import base option list strings gmap.
From Stdlib Require Import ZArith Ascii String.
From Stdlib.Strings Require Import Byte.

Local Set Warnings "-register-all".
Local Open Scope string_scope.
Local Open Scope Z_scope.

(** ** JavaScript strings *)

Module JsString.

(** [s.startsWith(p)] *)
Definition startsWith (s p : string) : bool := String.prefix p s.

(** [s.includes(t)] *)
Fixpoint includes (s t : string) : bool :=
  String.prefix t s ||
  match s with
  | EmptyString => false
  | String _ s' => includes s' t
  end.

(** The scan of [s.split(sep)] for a non-empty separator: [skip] counts the
    characters of a separator occurrence still to be dropped, [cur] holds
    the current piece, last character first. *)
Fixpoint split_go (sep : string) (skip : nat) (cur : string) (s : string)
  : list string :=
  match s with
  | EmptyString => [String.rev cur]
  | String c s' =>
      match skip with
      | S k => split_go sep k cur s'
      | O =>
          if String.prefix sep s
          then String.rev cur :: split_go sep (String.length sep - 1) EmptyString s'
          else split_go sep O (String c cur) s'
      end
  end.

(** [s.split(sep)] *)
Definition split (s sep : string) : list string :=
  split_go sep O EmptyString s.

(** [a || b] on strings: the empty string is falsy. *)
Definition or_else (a b : string) : string :=
  if decide (a = "") then b else a.

(** [a || b] where [a] may be [undefined]. *)
Definition opt_or_else (a : option string) (b : string) : string :=
  match a with
  | Some s => or_else s b
  | None => b
  end.

End JsString.

(** ** JSON-like values passed through the dispatcher *)

Inductive JSValue : Type :=
| JUndefined
| JNull
| JBool (b : bool)
| JNum (n : Z)
| JStr (s : string)
| JArr (items : list JSValue)
| JObj (fields : list (string * JSValue)).

(** A metadata bag [{ [key: string]: unknown }]. *)
Abbreviation Meta := (gmap string JSValue).

(** [{...a, ...b}]: the keys of [b] win. *)
Definition spread (a b : Meta) : Meta := b ∪ a.

(** [...m] for an optional bag: spreading [undefined] adds nothing. *)
Definition opt_meta (m : option Meta) : Meta := default ∅ m.

(** ** errors.ts *)

Inductive MCPErrorCode : Set :=
| PARSE_ERROR
| RESOURCE_NOT_FOUND
| INVALID_REQUEST
| METHOD_NOT_FOUND
| INVALID_PARAMS
| INTERNAL_ERROR.

(** Modelled from the spec: the numeric constants of [./types/spec], which
    errors.ts imports and which are not among the sources; "each with a
    distinct negative numeric code". The values are those of JSON-RPC 2.0
    and of the MCP schema. *)
Definition mcpErrors (code : MCPErrorCode) : Z :=
  match code with
  | PARSE_ERROR => -32700
  | RESOURCE_NOT_FOUND => -32002
  | INVALID_REQUEST => -32600
  | METHOD_NOT_FOUND => -32601
  | INVALID_PARAMS => -32602
  | INTERNAL_ERROR => -32603
  end.

Definition defaultErrorMessages (code : MCPErrorCode) : string :=
  match code with
  | PARSE_ERROR => "Parse error"
  | RESOURCE_NOT_FOUND => "Resource not found"
  | INVALID_REQUEST => "Invalid request"
  | METHOD_NOT_FOUND => "Method not found"
  | INVALID_PARAMS => "Invalid parameters"
  | INTERNAL_ERROR => "Internal error"
  end.

(** [class MCPError extends Error]: the fields [~code], [~message], [~data]. *)
Record MCPError : Type := mkMCPError {
  err_code : Z;
  err_message : string;
  err_data : option JSValue
}.

Definition mcpError (code : MCPErrorCode) (message : option string)
    (data : option JSValue) : MCPError :=
  mkMCPError (mcpErrors code)
             (JsString.opt_or_else message (defaultErrorMessages code))
             data.

(** ** Thrown values and outcomes of calls *)

(** What a [throw] can carry, as far as the [instanceof] tests of the
    sources tell values apart. *)
Inductive Exn : Type :=
| ExnError (message : string)          (* an [Error] that is not an [MCPError] *)
| ExnMCPError (e : MCPError)           (* an [MCPError], itself an [Error] *)
| ExnToolError (message : option string) (* a [ToolError]; not an [Error] *)
| ExnValue (v : JSValue).              (* any other thrown value *)

Inductive Outcome (A : Type) : Type :=
| Returned (a : A)
| Thrown (e : Exn).
Arguments Returned {A} a.
Arguments Thrown {A} e.

Definition bindO {A B} (m : Outcome A) (k : A -> Outcome B) : Outcome B :=
  match m with
  | Returned a => k a
  | Thrown e => Thrown e
  end.

Notation "x <~ m ;; k" := (bindO m (fun x => k))
  (at level 100, m at next level, right associativity).

(** [xs.map(f)] where [f] may throw: the first throw aborts the map. *)
Fixpoint mapO {A B} (f : A -> Outcome B) (xs : list A) : Outcome (list B) :=
  match xs with
  | [] => Returned []
  | x :: xs' => y <~ f x ;; ys <~ mapO f xs' ;; Returned (y :: ys)
  end.

(** [err instanceof MCPError] *)
Definition is_MCPError (e : Exn) : bool :=
  match e with ExnMCPError _ => true | _ => false end.

(** [err instanceof ToolError] *)
Definition is_ToolError (e : Exn) : bool :=
  match e with ExnToolError _ => true | _ => false end.

(** [TypeError] raised by the runtime (calling a non-function, reading a
    property of [undefined], [in] on a primitive). *)
Definition TypeError : Exn := ExnError "TypeError".

(** ** The request as the dispatcher sees it *)

(** [params] of a request: the fields the handlers read. *)
Record Params : Type := mkParams {
  params_name : string;
  params_arguments : JSValue;
  params_uri : string
}.

(** [RPCRequest]: [{ method, params, id }]. *)
Record RPCRequest : Type := mkRPCRequest {
  rpc_method : string;
  rpc_params : Params;
  rpc_id : JSValue
}.

(** The part of SvelteKit's [RequestEvent] that index.ts reads:
    [event.url.pathname], [event.url.origin], [event.request.method],
    [event.request.headers.get('Mcp-Session-Id')] and
    [event.request.json()], which rejects ([None]) on a malformed body. *)
Record RequestEvent : Type := mkRequestEvent {
  url_pathname : string;
  url_origin : string;
  request_method : string;
  header_session_id : option string;
  request_json : option RPCRequest
}.

(** ** utils/toJsonSchema.ts *)

Record PropertySchema : Type := mkPropertySchema {
  prop_type : string;
  prop_description : option string
}.

(** [JSONSchema7.Object], as far as the sources read it. *)
Record JsonSchema : Type := mkJsonSchema {
  schema_type : string;
  schema_properties : option (list (string * PropertySchema));
  schema_required : option (list string)
}.

(** A [StandardSchemaV1] value. Its vendor library is external: [validate]
    is what [validateInput(schema, input)] of [./types/standardSchema] does
    on this schema (return the parsed value or throw), and [vendor_json] is
    what the vendor's own converter yields for it. *)
Record StandardSchema : Type := mkStandardSchema {
  vendor : string;
  validate : JSValue -> Outcome JSValue;
  vendor_json : JsonSchema
}.

Definition toJsonSchema (schema : StandardSchema) : Outcome JsonSchema :=
  let js0 : option JsonSchema := None in
  let js1 := if decide (vendor schema = "arktype") then Some (vendor_json schema) else js0 in
  let js2 := if decide (vendor schema = "valibot") then Some (vendor_json schema) else js1 in
  let js3 := if decide (vendor schema = "zod") then Some (vendor_json schema) else js2 in
  let js4 := if decide (vendor schema = "effect") then Some (vendor_json schema) else js3 in
  match js4 with
  | None => Thrown (ExnError "Unsupported schema validation library")
  | Some jsonSchema =>
      if decide (schema_type jsonSchema = "object")
      then Returned jsonSchema
      else Thrown (ExnError "Schema is not an object")
  end.

(** ** Binary payloads and [toDataUrl] (resources.ts) *)

Inductive Binary : Type :=
| BinArrayBuffer (bytes : list byte)
| BinUint8Array (buffer : list byte) (byteOffset length : nat)
    (* a view of [length] bytes at [byteOffset] of the bytes of [data.buffer] *)
| BinBlob (bytes : list byte)
| BinFile (bytes : list byte).          (* a [File] is a [Blob] *)

Inductive BlobData : Type :=
| DataString (s : string)
| DataBinary (b : Binary).

Module Base64.

Definition alphabet : string :=
  "ABCDEFGHIJKLMNOPQRSTUVWXYZabcdefghijklmnopqrstuvwxyz0123456789+/".

Definition digit (n : N) : ascii :=
  match String.get (N.to_nat n) alphabet with
  | Some c => c
  | None => "="%char
  end.

Definition str (cs : list ascii) (rest : string) : string :=
  fold_right String rest cs.

(** [btoa] on the binary string whose character codes are [bs]. *)
Fixpoint btoa (bs : list byte) : string :=
  match bs with
  | [] => EmptyString
  | [a] =>
      let x := Byte.to_N a in
      str [digit (x / 4); digit ((x mod 4) * 16); "="%char; "="%char] EmptyString
  | [a; b] =>
      let x := Byte.to_N a in
      let y := Byte.to_N b in
      str [digit (x / 4); digit ((x mod 4) * 16 + y / 16);
           digit ((y mod 16) * 4); "="%char] EmptyString
  | a :: b :: c :: rest =>
      let x := Byte.to_N a in
      let y := Byte.to_N b in
      let z := Byte.to_N c in
      str [digit (x / 4); digit ((x mod 4) * 16 + y / 16);
           digit ((y mod 16) * 4 + z / 64); digit (z mod 64)] (btoa rest)
  end%N.

End Base64.

Definition toDataUrl (data : BlobData) (mimeType : string) : string :=
  match data with
  | DataString s => s
  | DataBinary b =>
      let buffer :=
        match b with
        | BinArrayBuffer bytes => bytes
        | BinUint8Array buffer _ _ => buffer
        | BinBlob bytes => bytes
        | BinFile bytes => bytes
        end in
      "data:" +:+ mimeType +:+ ";base64," +:+ Base64.btoa buffer
  end.

(** ** Protocol results *)

Inductive ContentBlock : Type :=
| TextContent (text : string)
| MediaContent (type : string) (mimeType : string) (data : string)
| ResourceLink (name uri mimeType : string).

Record CallToolResult : Type := mkCallToolResult {
  content : list ContentBlock;
  isError : option bool;
  structuredContent : option JSValue;
  result_meta : option Meta
}.

Record ResourceContent : Type := mkResourceContent {
  rc_uri : string;
  rc_mimeType : option string;
  rc_text : string;
  rc_meta : option Meta
}.

Record ReadResourceResult : Type := mkReadResourceResult {
  contents : list ResourceContent
}.

Record ToolDescriptor : Type := mkToolDescriptor {
  td_name : string;
  td_description : string;
  td_meta : Meta;
  td_title : option string;
  td_annotations : option JSValue;
  td_outputSchema : option JsonSchema;
  td_inputSchema : JsonSchema
}.

Record ResourceDescriptor : Type := mkResourceDescriptor {
  rd_name : string;
  rd_uri : string;            (* [uri], or [uriTemplate] in a template listing *)
  rd_description : option string;
  rd_mimeType : option string;
  rd_meta : option Meta
}.

Record PromptArgument : Type := mkPromptArgument {
  pa_name : string;
  pa_description : string;
  pa_required : bool
}.

Record PromptDescriptor : Type := mkPromptDescriptor {
  pd_name : string;
  pd_description : string;
  pd_arguments : list PromptArgument
}.

Record PromptMessage : Type := mkPromptMessage {
  pm_text : string;
  pm_role : string
}.

Record GetPromptResult : Type := mkGetPromptResult {
  gp_description : option string;
  gp_messages : list PromptMessage
}.

Record Capabilities : Type := mkCapabilities {
  cap_tools : bool;
  cap_resources : bool;
  cap_prompts : bool
}.

Record InitializeResult : Type := mkInitializeResult {
  serverInfo_name : string;
  serverInfo_version : string;
  protocolVersion : string;
  capabilities : Capabilities
}.

(** What a method handler resolves to when it does not resolve to an
    [MCPError]. *)
Inductive RpcValue : Type :=
| VInitialize (r : InitializeResult)
| VEmpty
| VGetPrompt (r : GetPromptResult)
| VListPrompts (prompts : list PromptDescriptor)
| VListResources (resources : list ResourceDescriptor)
| VListResourceTemplates (resourceTemplates : list ResourceDescriptor)
| VReadResource (r : ReadResourceResult)
| VCallTool (r : CallToolResult)
| VListTools (tools : list ToolDescriptor)
| VOther (v : JSValue).
    (* what a built-in function returned, see [NativeOutcome] below *)

(** [MaybePromise<Result | MCPError>] *)
Inductive HandlerReturn : Type :=
| HError (e : MCPError)
| HResult (v : RpcValue).

(** ** resources.ts *)

Record ResourcePayload : Type := mkResourcePayload {
  rp_uri : string;
  rp_sessionId : string
}.

(** What a resource handler can hand back, as far as [~call] tells values
    apart: a binary object, an [MCPError] built with the payload's [error],
    a [ReadResourceResult] object, or any plain value ([typeof result ===
    'string'] is [RValue (JStr _)]; no handler result is
    [RValue JUndefined]). *)
Inductive ResourceReturn : Type :=
| RBinary (b : Binary)
| RError (e : MCPError)
| RContents (r : ReadResourceResult)
| RValue (v : JSValue).

Record Resource : Type := mkResource {
  resource_name : string;
  resource_type : option string;
  resource_uri : option string;
  resource_description : option string;
  resource_handler : option (ResourcePayload -> Outcome ResourceReturn);
  resource_meta : option Meta
}.

(** [resource(name)] *)
Definition resource (name : string) : Resource :=
  mkResource name None None None None None.

(** [error] of resources.ts *)
Definition resource_error (code : MCPErrorCode) (message : option string)
    (data : option string) : MCPError :=
  mcpError code message
    (match data with
     | Some uri => Some (JObj [("uri", JStr uri)])
     | None => None
     end).

(** [!this['~config'].type]: a missing or empty MIME type. *)
Definition type_unset (r : Resource) : bool :=
  match resource_type r with
  | None => true
  | Some t => bool_decide (t = "")
  end.

(** [Resource['~call']] *)
Definition Resource_call (r : Resource) (uri sessionId : string)
  : Outcome HandlerReturn :=
  result <~ match resource_handler r with
            | Some handler => handler (mkResourcePayload uri sessionId)
            | None => Returned (RValue JUndefined)
            end ;;
  match result with
  | RValue (JStr text) =>
      Returned (HResult (VReadResource (mkReadResourceResult
        [mkResourceContent uri (resource_type r) text None])))
  | RBinary b =>
      if type_unset r
      then Returned (HError (resource_error INTERNAL_ERROR
                               (Some "Resource mimeType not set") (Some uri)))
      else
        let type := default "" (resource_type r) in
        let dataUrl := toDataUrl (DataBinary b) type in
        Returned (HResult (VReadResource (mkReadResourceResult
          [mkResourceContent uri (resource_type r) dataUrl None])))
  | _ => Returned (HError (resource_error RESOURCE_NOT_FOUND None None))
  end.

(** The regular expression [/\{[^{}]*\}/] tested against [uri]: an opening
    brace followed by a closing brace with no brace in between. [open]
    records that the last brace seen was an opening one. *)
Fixpoint template_scan (open : bool) (uri : string) : bool :=
  match uri with
  | EmptyString => false
  | String c rest =>
      if Ascii.eqb c "{" then template_scan true rest
      else if Ascii.eqb c "}" then (if open then true else template_scan false rest)
      else template_scan open rest
  end.

Definition isTemplate (uri : string) : bool := template_scan false uri.

Definition defineResource (name : string) (r : Resource) : ResourceDescriptor :=
  mkResourceDescriptor name
    (JsString.opt_or_else (resource_uri r) name)
    (resource_description r) (resource_type r) (resource_meta r).

Definition defineResourceTemplate (name : string) (r : Resource)
  : ResourceDescriptor :=
  mkResourceDescriptor name
    (JsString.opt_or_else (resource_uri r) name)
    (resource_description r) (resource_type r) (resource_meta r).

Definition defineResources (resources : list (string * Resource))
  : list ResourceDescriptor :=
  fold_left (fun acc '(key, r) =>
               if negb (isTemplate (default "" (resource_uri r)))
               then (acc ++ [defineResource key r])%list else acc)
            resources [].

Definition defineResourceTemplates (resources : list (string * Resource))
  : list ResourceDescriptor :=
  fold_left (fun acc '(key, r) =>
               if isTemplate (default "" (resource_uri r))
               then (acc ++ [defineResourceTemplate key r])%list else acc)
            resources [].

(** ** widget.ts *)

Record WidgetOptions : Type := mkWidgetOptions {
  name : string;
  invoking : string;
  invoked : string;
  description : string;
  prefersBorder : bool
}.

Record Widget : Type := mkWidget {
  id : string;
  options : WidgetOptions
}.

Definition dquote : string := String (ascii_of_nat 34) EmptyString.

(** The HTML document of [Widget.result]. *)
Definition widget_html (w : Widget) (domain : string) : string :=
  String.concat ""
    [ "			
			<html>
				<head>
					<script>
						const reloadWidget = () => {
							const previousScript = document.getElementById(";
      dquote;
      "widget-script";
      dquote;
      ");
							if (previousScript) {
								// Delete all page content and the script, then load the script again.
								document.body.innerHTML = '';
								previousScript.remove();
							}

							const script = document.createElement('script');
							script.id = ";
      dquote;
      "widget-script";
      dquote;
      ";
							const nonce = Math.random().toString(36).substring(2);
							script.src = '";
      domain;
      "/widgets/";
      name (options w);
      ".js?v=' + nonce;
							script.nonce = nonce;
							document.head.appendChild(script);
						};
						reloadWidget();
						window.reloadWidget = reloadWidget;
					</script>
				</head>
				<body></body>
			</html>
			" ].

(** [Widget.toolMetadata] *)
Definition toolMetadata (w : Widget) : Meta :=
  <["openai/outputTemplate" := JStr ("widget://" +:+ id w +:+ ".js")]>
  (<["openai/toolInvocation/invoking" := JStr (invoking (options w))]>
  (<["openai/toolInvocation/invoked" := JStr (invoked (options w))]>
  (<["openai/widgetAccessible" := JBool false]>
  (<["openai/resultCanProduceWidget" := JBool true]> ∅)))).

(** [Widget.result] *)
Definition Widget_result (w : Widget) (domain : string) : ReadResourceResult :=
  mkReadResourceResult
    [ mkResourceContent
        ("widget://" +:+ id w)
        (Some "text/html+skybridge")
        (widget_html w domain)
        (Some (<["openai/widgetDescription" :=
                   JStr (JsString.or_else (description (options w)) "A widget")]>
              (<["openai/widgetPrefersBorder" := JBool (prefersBorder (options w))]>
              (<["openai/widgetDomain" := JStr domain]> ∅)))) ].

(** [Widget.resource]. The MIME check of [Resource.type] lives in [./mime],
    which is not among the sources; [text/html+skybridge] is taken to pass
    it, as the widget listing relies on. *)
Definition Widget_resource (w : Widget) (domain : string) : Resource :=
  mkResource
    (name (options w))
    (Some "text/html+skybridge")
    (Some ("widget://" +:+ id w +:+ ".js"))
    (Some (description (options w)))
    (Some (fun _ => Returned (RContents (Widget_result w domain))))
    (Some (<["openai/widgetDescription" := JStr (description (options w))]>
          (<["openai/widgetPrefersBorder" := JBool (prefersBorder (options w))]> ∅))).

Definition defineWidgets (widgets : list (string * Widget)) (domain : string)
  : list ResourceDescriptor :=
  map (fun '(key, w) => defineResource (id w) (Widget_resource w domain)) widgets.

(** ** tools.ts *)

Record ToolPayload : Type := mkToolPayload {
  input : JSValue;
  event : RequestEvent;
  sessionId : string
}.

(** What a tool handler can hand back, as far as [~call] tells values
    apart: the three sentinels built with the payload's [error], [blob] and
    [resource], or any plain value (no handler result is
    [TValue JUndefined]). *)
Inductive ToolReturn : Type :=
| TError (message : option string)
| TBlob (data : BlobData) (mimeType : string) (meta : option Meta)
| TResource (uri name mimeType : string) (meta : option Meta)
| TValue (v : JSValue).

Record Tool : Type := mkTool {
  tool_schema : option StandardSchema;
  tool_description : string;
  tool_output : option StandardSchema;
  tool_handler : option (ToolPayload -> Outcome ToolReturn);
  tool_meta : option Meta;
  tool_title : option string;
  tool_annotations : option JSValue;
  tool_widget : option Widget
}.

(** [tool(description)] *)
Definition tool (description : string) : Tool :=
  mkTool None description None None None None None None.

(** [ToolError.result] *)
Definition ToolError_result (message : option string) : CallToolResult :=
  mkCallToolResult
    [TextContent (JsString.opt_or_else message "An error occurred during tool execution")]
    (Some true) None None.

(** [BlobResult.result], resolved. *)
Definition BlobResult_result (data : BlobData) (mimeType : string)
    (meta : option Meta) : CallToolResult :=
  mkCallToolResult
    [MediaContent (if JsString.startsWith mimeType "audio/" then "audio" else "image")
                  mimeType (toDataUrl data mimeType)]
    None None meta.

(** [ResourceResult.result] *)
Definition ResourceResult_result (uri name mimeType : string)
    (meta : option Meta) : CallToolResult :=
  mkCallToolResult [ResourceLink name uri mimeType] None None meta.

(** A [ResourceResult] instance seen as a plain object, which is how
    [~call] treats it. *)
Definition ResourceResult_value (uri name mimeType : string)
    (meta : option Meta) : JSValue :=
  JObj [("result",
         JObj ([("content",
                 JArr [JObj [("type", JStr "resource_link"); ("name", JStr name);
                             ("uri", JStr uri); ("mimeType", JStr mimeType)]])]
               ++ match meta with
                  | Some m => [("_meta", JObj (map_to_list m))]
                  | None => []
                  end)%list)].

(** [err instanceof Error ? err.message || 'Unknown error' : 'Unknown error'] *)
Definition thrown_message (err : Exn) : string :=
  match err with
  | ExnError message => JsString.or_else message "Unknown error"
  | ExnMCPError e => JsString.or_else (err_message e) "Unknown error"
  | ExnToolError _ => "Unknown error"
  | ExnValue _ => "Unknown error"
  end.

(** [Tool['~validate']] *)
Definition Tool_validate (t : Tool) (input : JSValue) : Outcome JSValue :=
  match tool_schema t with
  | None => Returned JUndefined
  | Some schema => validate schema input
  end.

Section Tools.

(** [safeStringify] of [./utils/utils], which is not among the sources. *)
Variable safeStringify : JSValue -> string.

(** The body of the [try] block of [~call], after the handler returned. *)
Definition shape_result (t : Tool) (result : ToolReturn) : CallToolResult :=
  let plain (v : JSValue) :=
    mkCallToolResult [TextContent (safeStringify v)] None
      (match tool_output t with Some _ => Some v | None => None end) None in
  match result with
  | TError message => ToolError_result message
  | TBlob data mimeType meta => BlobResult_result data mimeType meta
  | TValue (JStr s) => mkCallToolResult [TextContent s] None None None
  | TValue v => plain v
  | TResource uri name mimeType meta =>
      plain (ResourceResult_value uri name mimeType meta)
  end.

(** [this['~config'].handler?.(payload)] *)
Definition invoke_tool_handler (t : Tool) (payload : ToolPayload)
  : Outcome ToolReturn :=
  match tool_handler t with
  | Some handler => handler payload
  | None => Returned (TValue JUndefined)
  end.

(** The [try]/[catch] of [~call] around the awaited handler result. *)
Definition settle (t : Tool) (handled : Outcome ToolReturn) : CallToolResult :=
  match handled with
  | Returned result => shape_result t result
  | Thrown err =>
      match err with
      | ExnToolError message => ToolError_result message
      | _ => ToolError_result (Some (thrown_message err))
      end
  end.

(** [Tool['~call']] *)
Definition Tool_call (t : Tool) (input : JSValue) (event : RequestEvent)
    (sessionId : string) : CallToolResult :=
  settle t (invoke_tool_handler t (mkToolPayload input event sessionId)).

End Tools.

Definition defineTool (name : string) (t : Tool) : Outcome ToolDescriptor :=
  let meta := opt_meta (tool_meta t) in
  let widget_meta :=
    match tool_widget t with
    | Some w => toolMetadata w
    | None => ∅
    end in
  outputSchema <~ match tool_output t with
                  | Some output => js <~ toJsonSchema output ;; Returned (Some js)
                  | None => Returned None
                  end ;;
  inputSchema <~ match tool_schema t with
                 | Some schema => toJsonSchema schema
                 | None => Returned (mkJsonSchema "object" None None)
                 end ;;
  Returned (mkToolDescriptor name (tool_description t)
              (spread meta widget_meta)
              (tool_title t) (tool_annotations t) outputSchema inputSchema).

Definition defineTools (tools : list (string * Tool))
  : Outcome (list ToolDescriptor) :=
  mapO (fun '(key, t) => defineTool key t) tools.

(** ** prompts.ts *)

Record PromptPayload : Type := mkPromptPayload {
  prompt_input : JSValue;
  prompt_sessionId : string
}.

(** What a prompt handler can hand back: an [MCPError] built with the
    payload's [error], a message object, or nothing of the kind (no handler:
    [PNullish]). *)
Inductive PromptReturn : Type :=
| PError (e : MCPError)
| PMessage (description : option string) (role : option string) (text : string)
| PNullish.

Record Prompt : Type := mkPrompt {
  prompt_schema : option StandardSchema;
  prompt_description : string;
  prompt_handler : option (PromptPayload -> Outcome PromptReturn)
}.

(** [prompt(description)] *)
Definition prompt (description : string) : Prompt :=
  mkPrompt None description None.

(** [Prompt['~call']] *)
Definition Prompt_call (p : Prompt) (input : JSValue) (sessionId : string)
  : Outcome PromptReturn :=
  match prompt_handler p with
  | Some handler => handler (mkPromptPayload input sessionId)
  | None => Returned PNullish
  end.

(** [Prompt['~validate']] *)
Definition Prompt_validate (p : Prompt) (input : JSValue) : Outcome JSValue :=
  match prompt_schema p with
  | None => Returned JUndefined
  | Some schema => validate schema input
  end.

Definition definePrompt (name : string) (p : Prompt) : Outcome PromptDescriptor :=
  jsonSchema <~ match prompt_schema p with
                | Some schema => toJsonSchema schema
                | None => Returned (mkJsonSchema "object" (Some []) (Some []))
                end ;;
  Returned (mkPromptDescriptor name (prompt_description p)
    (map (fun '(key, value) =>
            let isRequired :=
              match schema_required jsonSchema with
              | Some required => Some (existsb (String.eqb key) required)
              | None => None
              end in
            mkPromptArgument key (default "" (prop_description value))
                             (default false isRequired))
         (default [] (schema_properties jsonSchema)))).

Definition definePrompts (prompts : list (string * Prompt))
  : Outcome (list PromptDescriptor) :=
  mapO (fun '(key, p) => definePrompt key p) prompts.

(** ** handler.ts *)

Record MCPServer : Type := mkMCPServer {
  server_domain : option string;
  server_widgets : option (list (string * Widget));
  server_tools : option (list (string * Tool));
  server_prompts : option (list (string * Prompt));
  server_resources : option (list (string * Resource));
  server_name : string;
  server_version : string
}.

(** [!!registry && Object.keys(registry).length > 0] *)
Definition non_empty {A} (registry : option (list (string * A))) : bool :=
  match registry with
  | Some (_ :: _) => true
  | _ => false
  end.

(** [registry || {}] *)
Definition entries {A} (registry : option (list (string * A)))
  : list (string * A) := default [] registry.

(** [Object.values(registry || {})] *)
Definition values {A} (registry : option (list (string * A))) : list A :=
  map snd (entries registry).

(** [obj[key]] on own properties. *)
Fixpoint get_property {A} (key : string) (obj : list (string * A)) : option A :=
  match obj with
  | [] => None
  | (k, v) :: rest => if String.eqb k key then Some v else get_property key rest
  end.

(** The property names of [Object.prototype], which every object literal
    inherits. *)
Definition object_prototype_names : list string :=
  ["constructor"; "__defineGetter__"; "__defineSetter__"; "hasOwnProperty";
   "__lookupGetter__"; "__lookupSetter__"; "isPrototypeOf";
   "propertyIsEnumerable"; "toString"; "valueOf"; "__proto__";
   "toLocaleString"].

(** The property names of [Function.prototype] other than [length] and
    [name], which every function has of its own. *)
Definition function_prototype_names : list string :=
  ["arguments"; "caller"; "apply"; "bind"; "call"; "constructor"; "toString"].

(** [key in obj] holds of an object literal [obj] without [key] among its
    own properties. *)
Definition inherited_by_object (key : string) : bool :=
  existsb (String.eqb key) object_prototype_names.

(** [key in fn] holds of a function [fn] for a [key] other than [length]
    and [name]. *)
Definition inherited_by_function (key : string) : bool :=
  existsb (String.eqb key) function_prototype_names || inherited_by_object key.

Record MCPHandler : Type := mkMCPHandler {
  server : MCPServer;
  handler_event : RequestEvent;
  domain : string;
  handler_sessionId : string;
  hasTools : bool;
  hasResources : bool;
  hasPrompts : bool;
  hasWidgets : bool
}.

(** [new MCPHandler(server, event, domain, sessionId)] *)
Definition new_MCPHandler (srv : MCPServer) (ev : RequestEvent)
    (dom sid : string) : MCPHandler :=
  mkMCPHandler srv ev dom sid
    (non_empty (server_tools srv))
    (non_empty (server_resources srv))
    (non_empty (server_prompts srv))
    (non_empty (server_widgets srv)).

(** The methods of the table built by [mpcHandler]. *)
Inductive Method : Set :=
| initialize
| notifications_initialized
| prompts_get
| prompts_list
| resources_list
| resources_templates_list
| resources_read
| tools_call
| tools_list
| ping.

Definition method_not_found : Outcome HandlerReturn :=
  Returned (HError (mcpError METHOD_NOT_FOUND None None)).

Section Handler.

Variable safeStringify : JSValue -> string.
Variable this : MCPHandler.

Definition handle_initialize : Outcome HandlerReturn :=
  Returned (HResult (VInitialize
    (mkInitializeResult
       (server_name (server this)) (server_version (server this))
       "2025-06-18"
       (mkCapabilities (hasTools this)
                       (hasResources this || hasWidgets this)
                       (hasPrompts this))))).

Definition handle_prompts_get (payload : Params) : Outcome HandlerReturn :=
  if negb (hasPrompts this) then method_not_found
  else
    match get_property (params_name payload) (entries (server_prompts (server this))) with
    | None =>
        (* [prompts[name]] is [undefined], or a built-in of [Object.prototype]:
           that one is truthy and has no [~validate], so the call throws a
           [TypeError] inside the [try] *)
        if inherited_by_object (params_name payload)
        then Returned (HError (mcpError INTERNAL_ERROR None None))
        else method_not_found
    | Some prompt =>
        match Prompt_validate prompt (params_arguments payload) with
        | Thrown err =>
            match err with
            | ExnMCPError e => Returned (HError e)
            | _ => Returned (HError (mcpError INTERNAL_ERROR None None))
            end
        | Returned validatedPayload =>
            result <~ Prompt_call prompt validatedPayload (handler_sessionId this) ;;
            match result with
            | PError e => Returned (HError e)
            | PMessage description role text =>
                Returned (HResult (VGetPrompt
                  (mkGetPromptResult description
                     [mkPromptMessage text (JsString.opt_or_else role "assistant")])))
            | PNullish => Thrown TypeError
            end
        end
    end.

Definition handle_prompts_list : Outcome HandlerReturn :=
  if negb (hasPrompts this) then method_not_found
  else
    prompts <~ definePrompts (entries (server_prompts (server this))) ;;
    Returned (HResult (VListPrompts prompts)).

Definition handle_resources_list : Outcome HandlerReturn :=
  if negb (hasResources this) && negb (hasWidgets this) then method_not_found
  else
    let resources :=
      if hasResources this
      then defineResources (entries (server_resources (server this))) else [] in
    let widgets :=
      if hasWidgets this
      then defineWidgets (entries (server_widgets (server this))) (domain this)
      else [] in
    Returned (HResult (VListResources (resources ++ widgets)%list)).

Definition handle_resources_templates_list : Outcome HandlerReturn :=
  if negb (hasResources this) then method_not_found
  else
    Returned (HResult (VListResourceTemplates
      (defineResourceTemplates (entries (server_resources (server this)))))).

(** The [find] over the widgets of [resources.read]: its callback computes
    [payload.uri.split('//')[1].split('.')[0]] at every widget, and throws
    when the second piece is missing. *)
Definition find_widget (uri : string) (widgets : list Widget)
  : Outcome (option Widget) :=
  match widgets with
  | [] => Returned None
  | _ :: _ =>
      match JsString.split uri "//" !! 1%nat with
      | None => Thrown TypeError
      | Some rest =>
          let token := default "" (head (JsString.split rest ".")) in
          Returned (find (fun w => JsString.includes (id w) token) widgets)
      end
  end.

Definition handle_resources_read (payload : Params) : Outcome HandlerReturn :=
  if negb (hasResources this) && negb (hasWidgets this) then method_not_found
  else if JsString.startsWith (params_uri payload) "widget://" then
    widget <~ find_widget (params_uri payload) (values (server_widgets (server this))) ;;
    match widget with
    | None => Returned (HError (mcpError RESOURCE_NOT_FOUND None None))
    | Some w => Returned (HResult (VReadResource (Widget_result w (domain this))))
    end
  else
    let resource :=
      find (fun r => bool_decide (resource_uri r = Some (params_uri payload)))
           (values (server_resources (server this))) in
    let templatedResource :=
      match resource with
      | Some _ => None
      | None =>
          find (fun r => isTemplate (default "" (resource_uri r)))
               (values (server_resources (server this)))
      end in
    match resource, templatedResource with
    | Some r, _ => Resource_call r (params_uri payload) (handler_sessionId this)
    | None, Some r => Resource_call r (params_uri payload) (handler_sessionId this)
    | None, None => Returned (HError (mcpError RESOURCE_NOT_FOUND None None))
    end.

(** [{ ...result, _meta: { ...result._meta, ...toolWidget.toolMetadata } }] *)
Definition with_widget_meta (result : CallToolResult) (w : Widget)
  : CallToolResult :=
  mkCallToolResult (content result) (isError result) (structuredContent result)
    (Some (spread (opt_meta (result_meta result)) (toolMetadata w))).

Definition handle_tools_call (payload : Params) : Outcome HandlerReturn :=
  if negb (hasTools this) then method_not_found
  else
    match get_property (params_name payload) (entries (server_tools (server this))) with
    | None =>
        (* [tools[name]] is [undefined], or a built-in of [Object.prototype]:
           that one is truthy and has no [~validate], so the call throws a
           [TypeError] inside the [try] *)
        if inherited_by_object (params_name payload)
        then Returned (HError (mcpError INVALID_PARAMS None None))
        else method_not_found
    | Some tool =>
        match Tool_validate tool (params_arguments payload) with
        | Thrown err =>
            match err with
            | ExnMCPError e => Returned (HError e)
            | _ => Returned (HError (mcpError INVALID_PARAMS None None))
            end
        | Returned validatedPayload =>
            let result :=
              Tool_call safeStringify tool validatedPayload
                        (handler_event this) (handler_sessionId this) in
            match tool_widget tool with
            | Some toolWidget =>
                Returned (HResult (VCallTool (with_widget_meta result toolWidget)))
            | None => Returned (HResult (VCallTool result))
            end
        end
    end.

Definition handle_tools_list : Outcome HandlerReturn :=
  if negb (hasTools this) then method_not_found
  else
    tools <~ defineTools (entries (server_tools (server this))) ;;
    Returned (HResult (VListTools tools)).

(** The function stored in the table under [m], applied to [params]. *)
Definition call_method (m : Method) (params : Params) : Outcome HandlerReturn :=
  match m with
  | initialize => handle_initialize
  | notifications_initialized => Returned (HResult VEmpty)
  | prompts_get => handle_prompts_get params
  | prompts_list => handle_prompts_list
  | resources_list => handle_resources_list
  | resources_templates_list => handle_resources_templates_list
  | resources_read => handle_resources_read params
  | tools_call => handle_tools_call params
  | tools_list => handle_tools_list
  | ping => Returned (HResult VEmpty)
  end.

End Handler.

(** ** HTTP responses (errors.ts, utils/handleGetDelete.ts) *)

(** The JSON document of a response body, before [JSON.stringify]. *)
Inductive ResponseBody : Type :=
| BodyResult (id : JSValue) (result : RpcValue)
    (* [{ jsonrpc: '2.0', id, result }] *)
| BodyError (code : Z) (message : string) (data : option JSValue).
    (* [{ jsonrpc: '2.0', id: null, error: { code, message, data } }] *)

Record Response : Type := mkResponse {
  status : Z;
  headers : list (string * string);
  body : ResponseBody
}.

(** [response.headers.get(name)] *)
Definition get_header (name : string) (r : Response) : option string :=
  get_property name (headers r).

Definition errorResponse (error : MCPErrorCode + MCPError) (sessionId : string)
  : Response :=
  let ERROR :=
    match error with
    | inr e => e
    | inl code => mcpError code None None
    end in
  mkResponse 400
    [("Content-Type", "application/json"); ("Mcp-Session-Id", sessionId)]
    (BodyError (err_code ERROR) (err_message ERROR) (err_data ERROR)).

Definition handleGetDeleteMethodNotAllowed : Response :=
  mkResponse 405
    [("Content-Type", "application/json")]
    (BodyError (-32000) "Method not allowed." None).

(** ** index.ts *)

(** The values met while walking the object returned by [mpcHandler]: the
    nested objects, the arrow functions stored in them (with their own
    properties [name] and [length]), the primitives those two properties
    hold, and [Native]: any value of the built-in objects, reached through
    a name that an object or a function inherits. *)
Inductive HandlerValue : Type :=
| Obj (props : list (string * HandlerValue))
| Fn (fname : string) (arity : nat) (m : Method)
| Num (n : nat)
| Str (s : string)
| Native.

(** [handler.mpcHandler] *)
Definition mpcHandler : HandlerValue :=
  Obj [ ("initialize", Fn "initialize" 0 initialize);
        ("notifications",
         Obj [("initialized", Fn "initialized" 0 notifications_initialized)]);
        ("prompts",
         Obj [("get", Fn "get" 1 prompts_get);
              ("list", Fn "list" 1 prompts_list)]);
        ("resources",
         Obj [("list", Fn "list" 1 resources_list);
              ("templates", Obj [("list", Fn "list" 1 resources_templates_list)]);
              ("read", Fn "read" 1 resources_read)]);
        ("tools",
         Obj [("call", Fn "call" 1 tools_call);
              ("list", Fn "list" 1 tools_list)]);
        ("ping", Fn "ping" 1 ping) ].

(** One turn of the loop of [handleMCP]:
    [if (key in handlerMethod) handlerMethod = handlerMethod[key]].
    [in] throws on a primitive; a name that is not an own property and is
    inherited leads into the built-in objects, where the walk stays as far
    as this function tells (see [NativeOutcome]). *)
Definition step (handlerMethod : HandlerValue) (key : string)
  : Outcome HandlerValue :=
  match handlerMethod with
  | Obj props =>
      Returned (match get_property key props with
                | Some value => value
                | None => if inherited_by_object key then Native else handlerMethod
                end)
  | Fn fname arity _ =>
      Returned (if String.eqb key "length" then Num arity
                else if String.eqb key "name" then Str fname
                else if inherited_by_function key then Native
                else handlerMethod)
  | Num _ => Thrown TypeError
  | Str _ => Thrown TypeError
  | Native => Returned Native
  end.

(** [for (const key of method.split('/')) ...] *)
Fixpoint walk (handlerMethod : HandlerValue) (keys : list string)
  : Outcome HandlerValue :=
  match keys with
  | [] => Returned handlerMethod
  | key :: rest => next <~ step handlerMethod key ;; walk next rest
  end.

(** [!handlerMethod] *)
Definition falsy (v : HandlerValue) : bool :=
  match v with
  | Obj _ => false
  | Fn _ _ _ => false
  | Num n => bool_decide (n = 0%nat)
  | Str s => bool_decide (s = "")
  | Native => false
  end.

(** What the runtime makes of a method path that walks into the built-in
    objects: a later [in] or property read throws, outside the [try]; or
    the walk ends on a falsy value; or it ends on a value that is called,
    which throws or returns (a built-in returns no [MCPError], but the
    entry point would answer it like any other). *)
Inductive NativeOutcome : Type :=
| NativeThrows (e : Exn)
| NativeFalsy
| NativeCalled (settled : Outcome HandlerReturn).

(** What the [Handle] built by [handleMCP] settles to. *)
Inductive HandleResult : Type :=
| Respond (r : Response)
| Cors                    (* [handleCors()] of [./utils/cors] *)
| Resolve                 (* [resolve(event)] *)
| Uncaught (e : Exn).     (* the returned promise rejects *)

(** [event.request.headers.get('Mcp-Session-Id') || crypto.randomUUID()],
    where [uuid] is what [crypto.randomUUID()] would give. *)
Definition session_id (ev : RequestEvent) (uuid : string) : string :=
  JsString.opt_or_else (header_session_id ev) uuid.

Section Index.

Variable safeStringify : JSValue -> string.

(** The built-in objects of the runtime, seen from the entry point: what
    becomes of the request of [ev] when its method leaves the handler
    table. *)
Variable builtins : RequestEvent -> NativeOutcome.

(** [handlerMethod(params, event)] *)
Definition call_handlerMethod (this : MCPHandler) (handlerMethod : HandlerValue)
    (params : Params) : Outcome HandlerReturn :=
  match handlerMethod with
  | Fn _ _ m => call_method safeStringify this m params
  | Obj _ => Thrown TypeError
  | Num _ => Thrown TypeError
  | Str _ => Thrown TypeError
  | Native => Thrown TypeError   (* not reached: see [handleMCP] *)
  end.

Definition handleMCP (srv : MCPServer) (ev : RequestEvent) (uuid : string)
  : HandleResult :=
  if JsString.startsWith (url_pathname ev) "/mcp" then
    if String.eqb (request_method ev) "OPTIONS" then Cors
    else if String.eqb (request_method ev) "GET"
            || String.eqb (request_method ev) "DELETE"
    then Respond handleGetDeleteMethodNotAllowed
    else
      let sessionId := session_id ev uuid in
      let headers := [("Content-Type", "application/json");
                      ("Mcp-Session-Id", sessionId)] in
      match request_json ev with
      | None => Respond (errorResponse (inl PARSE_ERROR) sessionId)
      | Some body =>
          let handler :=
            new_MCPHandler srv ev
              (JsString.opt_or_else (server_domain srv) (url_origin ev))
              sessionId in
          (* the [try] block around the call of [handlerMethod] *)
          let answer (settled : Outcome HandlerReturn) :=
            match settled with
            | Returned (HError result) =>
                Respond (errorResponse (inr result) sessionId)
            | Returned (HResult result) =>
                Respond (mkResponse 200 headers
                           (BodyResult (rpc_id body) result))
            | Thrown _ =>
                Respond (errorResponse (inl INTERNAL_ERROR) sessionId)
            end in
          match walk mpcHandler (JsString.split (rpc_method body) "/") with
          | Thrown e => Uncaught e
          | Returned Native =>
              match builtins ev with
              | NativeThrows e => Uncaught e
              | NativeFalsy =>
                  Respond (errorResponse (inl METHOD_NOT_FOUND) sessionId)
              | NativeCalled settled => answer settled
              end
          | Returned handlerMethod =>
              if falsy handlerMethod
              then Respond (errorResponse (inl METHOD_NOT_FOUND) sessionId)
              else answer (call_handlerMethod handler handlerMethod (rpc_params body))
          end
      end
  else Resolve.

End Index.

(** ** Notions used to state the properties *)

(** The first piece of [s.split(sep)]: [s] up to the first occurrence of
    [sep]. *)
Fixpoint cut (sep s : string) : string :=
  match s with
  | EmptyString => EmptyString
  | String c s' => if String.prefix sep s then EmptyString else String c (cut sep s')
  end.

(** The token that [resources.read] extracts from the URI of the widget
    with identifier [i]: the identifier up to its first ["//"] or ["."]. *)
Definition id_token (i : string) : string :=
  cut "." (cut "//" (i +:+ ".js")).

Fixpoint no_brace (s : string) : bool :=
  match s with
  | EmptyString => true
  | String c s' => negb (Ascii.eqb c "{") && negb (Ascii.eqb c "}") && no_brace s'
  end.

(** [uri] contains a brace-delimited placeholder. *)
Definition has_placeholder (uri : string) : Prop :=
  exists pre mid post,
    uri = pre +:+ "{" +:+ mid +:+ "}" +:+ post /\ no_brace mid = true.

(** [err.message] when [err instanceof Error]. *)
Definition error_message (err : Exn) : option string :=
  match err with
  | ExnError message => Some message
  | ExnMCPError e => Some (err_message e)
  | ExnToolError _ => None
  | ExnValue _ => None
  end.

(** The last step of [tools.call]: the result as it is, or with the linked
    widget's metadata. *)
Definition attach_widget (t : Tool) (result : CallToolResult) : CallToolResult :=
  match tool_widget t with
  | Some toolWidget => with_widget_meta result toolWidget
  | None => result
  end.

(** [m] holds every entry of the tool metadata of [w], and agrees with [own]
    on every other key. *)
Definition widget_keys_win (w : Widget) (own m : Meta) : Prop :=
  m !! "openai/outputTemplate" = Some (JStr ("widget://" +:+ id w +:+ ".js"))
  /\ (forall k v, toolMetadata w !! k = Some v -> m !! k = Some v)
  /\ (forall k, toolMetadata w !! k = None -> m !! k = own !! k).

(** [ev] is a POST to the protocol endpoint whose body parses to [rpc]. *)
Definition rpc_post (ev : RequestEvent) (rpc : RPCRequest) : Prop :=
  JsString.startsWith (url_pathname ev) "/mcp" = true
  /\ request_method ev = "POST"
  /\ request_json ev = Some rpc.

(** The response to a request that a handler answered with [result]. *)
Definition success (sessionId : string) (id : JSValue) (result : RpcValue)
  : Response :=
  mkResponse 200
    [("Content-Type", "application/json"); ("Mcp-Session-Id", sessionId)]
    (BodyResult id result).

(** The handler object that [handleMCP] builds for a request. *)
Definition request_handler (srv : MCPServer) (ev : RequestEvent) (uuid : string)
  : MCPHandler :=
  new_MCPHandler srv ev
    (JsString.opt_or_else (server_domain srv) (url_origin ev))
    (session_id ev uuid).

(** What [handleMCP] answers once the method's handler has settled. *)
Definition respond (sessionId : string) (id : JSValue)
    (settled : Outcome HandlerReturn) : HandleResult :=
  match settled with
  | Returned (HError e) => Respond (errorResponse (inr e) sessionId)
  | Returned (HResult result) => Respond (success sessionId id result)
  | Thrown _ => Respond (errorResponse (inl INTERNAL_ERROR) sessionId)
  end.

(** ** Sample servers and requests *)

Module Sample.

Definition stringify (v : JSValue) : string :=
  match v with
  | JStr s => s
  | _ => "[value]"
  end.

Definition post (method : string) (params : Params) : RequestEvent :=
  mkRequestEvent "/mcp" "https://app.example" "POST" (Some "s-1")
    (Some (mkRPCRequest method params (JNum 1))).

Definition get : RequestEvent :=
  mkRequestEvent "/mcp" "https://app.example" "GET" (Some "s-1") None.

Definition no_params : Params := mkParams "" JUndefined "".

(** A runtime in which every walk into the built-in objects ends in a
    throw. *)
Definition builtins_throw (ev : RequestEvent) : NativeOutcome :=
  NativeThrows TypeError.

(** A server with no registry at all. *)
Definition bare : MCPServer :=
  mkMCPServer None None None None None "bare" "1.0.0".

Definition greeting : Widget :=
  mkWidget "greeting" (mkWidgetOptions "greeting" "Greeting" "Greeted" "" false).

Definition my_greeting : Widget :=
  mkWidget "my-greeting"
    (mkWidgetOptions "my-greeting" "Greeting" "Greeted" "Mine" true).

(** Two widgets, the identifier of the second contained in the first's. *)
Definition two_widgets : MCPServer :=
  mkMCPServer None
    (Some [("myGreetingWidget", my_greeting); ("greetingWidget", greeting)])
    None None None "widgets" "1.0.0".

(** A tool whose handler throws [new Error('')]. *)
Definition failing : Tool :=
  mkTool None "always fails" None (Some (fun _ => Thrown (ExnError ""))) None
         None None None.

(** A tool linked to a widget, with metadata of its own under one of the
    widget's keys; its handler echoes its input. *)
Definition greet : Tool :=
  mkTool None "greets" None
    (Some (fun payload => Returned (TValue (input payload))))
    (Some (<["openai/widgetAccessible" := JBool true]>
          (<["version" := JStr "1.0"]> ∅)))
    None None (Some greeting).

Definition always_invalid : StandardSchema :=
  mkStandardSchema "zod" (fun _ => Thrown (ExnError "invalid input"))
    (mkJsonSchema "object" (Some []) (Some [])).

Definition strict_tool : Tool :=
  mkTool (Some always_invalid) "strict" None
    (Some (fun _ => Returned (TValue (JStr "ok")))) None None None None.

Definition strict_prompt : Prompt :=
  mkPrompt (Some always_invalid) "strict"
    (Some (fun _ => Returned (PMessage None None "ok"))).

Definition readme : Resource :=
  mkResource "readme" (Some "text/plain") (Some "file:///readme") None
    (Some (fun _ => Returned (RValue (JStr "hello")))) None.

Definition user_file : Resource :=
  mkResource "user file" None (Some "file:///users/{id}") None
    (Some (fun _ => Returned (RBinary (BinArrayBuffer [x68; x69])))) None.

Definition counter : Resource :=
  mkResource "counter" None (Some "counter://value") None
    (Some (fun _ => Returned (RValue (JNum 7)))) None.

Definition full : MCPServer :=
  mkMCPServer (Some "https://cdn.example")
    (Some [("greetingWidget", greeting)])
    (Some [("failing", failing); ("greet", greet); ("strict", strict_tool)])
    (Some [("strict", strict_prompt)])
    (Some [("readme", readme); ("userFile", user_file); ("counter", counter)])
    "full" "1.0.0".

(** Resources without a template among them, and no readme. *)
Definition plain_resources : MCPServer :=
  mkMCPServer None None None None (Some [("counter", counter)]) "plain" "1.0.0".

(** Requests. *)
Definition call_failing : RPCRequest :=
  mkRPCRequest "tools/call" (mkParams "failing" (JObj [("x", JNum 1)]) "") (JNum 1).

Definition greet_params : Params :=
  mkParams "greet" (JObj [("name", JStr "Ada")]) "".

Definition strict_params : Params :=
  mkParams "strict" (JObj [("name", JStr "Ada")]) "".

Definition read (uri : string) : Params := mkParams "" JUndefined uri.

Definition on (rpc : RPCRequest) : RequestEvent :=
  mkRequestEvent "/mcp" "https://app.example" "POST" (Some "s-1") (Some rpc).

Definition request (method : string) : RPCRequest :=
  mkRPCRequest method no_params (JNum 1).

(** The handler object of [srv] for a request of session ["s-1"]. *)
Definition handler_of (srv : MCPServer) : MCPHandler :=
  new_MCPHandler srv get "https://cdn.example" "s-1".

End Sample.

(** ** Notions used to state further properties *)

(** The vendors whose schemas [toJsonSchema] converts. *)
Definition supported_vendors : list string :=
  ["arktype"; "valibot"; "zod"; "effect"].

(** The configured URI of a registry entry is a template. *)
Definition templated (e : string * Resource) : bool :=
  isTemplate (default "" (resource_uri e.2)).

(** The token that [resources.read] extracts from the URI
    ["widget://" + rest]: [rest] up to its first ["//"] or ["."]. *)
Definition uri_token (rest : string) : string := cut "." (cut "//" rest).

(** [srv] with another resource registry. *)
Definition with_resources (srv : MCPServer)
    (resources : option (list (string * Resource))) : MCPServer :=
  mkMCPServer (server_domain srv) (server_widgets srv) (server_tools srv)
              (server_prompts srv) resources (server_name srv) (server_version srv).

(** The bytes that [toDataUrl] encodes for a binary value: for a
    [Uint8Array] these are all the bytes of [data.buffer], whatever part of
    the buffer the array views. *)
Definition binary_bytes (b : Binary) : list byte :=
  match b with
  | BinArrayBuffer bytes => bytes
  | BinUint8Array buffer _ _ => buffer
  | BinBlob bytes => bytes
  | BinFile bytes => bytes
  end.

(** The bytes that a binary value holds: for a [Uint8Array] the [length]
    bytes of its buffer that start at [byteOffset]. *)
Definition view_bytes (b : Binary) : list byte :=
  match b with
  | BinArrayBuffer bytes => bytes
  | BinUint8Array buffer byteOffset length => take length (drop byteOffset buffer)
  | BinBlob bytes => bytes
  | BinFile bytes => bytes
  end.

(** A [Uint8Array] that views the whole of its buffer, and every binary
    value of another kind. *)
Definition whole_buffer (b : Binary) : Prop :=
  match b with
  | BinUint8Array buffer byteOffset length =>
      byteOffset = 0%nat /\ length = List.length buffer
  | _ => True
  end.

(** The decoder that a reader of a data URL applies to its payload: the
    inverse of [btoa], on groups of four characters with [=] padding. *)
Module Atob.

Fixpoint position (c : ascii) (alphabet : string) (n : N) : option N :=
  match alphabet with
  | EmptyString => None
  | String a rest => if Ascii.eqb a c then Some n else position c rest (n + 1)
  end.

(** The six bits that the character [c] stands for. *)
Definition value (c : ascii) : option N := position c Base64.alphabet 0.

Definition is_pad (c : ascii) : bool := Ascii.eqb c "=".

Fixpoint atob (s : string) : option (list byte) :=
  match s with
  | EmptyString => Some []
  | String a (String b (String c (String d rest))) =>
      x ← value a;
      y ← value b;
      b1 ← Byte.of_N (x * 4 + y / 16);
      if is_pad c && is_pad d && bool_decide (rest = "") then Some [b1]
      else
        z ← value c;
        b2 ← Byte.of_N ((y mod 16) * 16 + z / 4);
        if is_pad d && bool_decide (rest = "") then Some [b1; b2]
        else
          w ← value d;
          b3 ← Byte.of_N ((z mod 4) * 64 + w);
          tail ← atob rest;
          Some (b1 :: b2 :: b3 :: tail)
  | _ => None
  end%N.

End Atob.

(** [key] names an own property of [v] or of a value stored in [v]. *)
Fixpoint mentions (key : string) (v : HandlerValue) : bool :=
  match v with
  | Obj props =>
      (fix inside (l : list (string * HandlerValue)) : bool :=
         match l with
         | [] => false
         | (k, v') :: l' => String.eqb k key || mentions key v' || inside l'
         end) props
  | Fn _ _ _ => String.eqb key "length" || String.eqb key "name"
  | Num _ => false
  | Str _ => false
  | Native => false
  end.

(** [v] is an object or a function, on which [in] does not throw. *)
Definition is_object (v : HandlerValue) : bool :=
  match v with
  | Obj _ => true
  | Fn _ _ _ => true
  | Num _ => false
  | Str _ => false
  | Native => false
  end.




(** ** vite/validators.ts *)

(** Component names are taken to be ASCII, as [validateComponentName]
    requires of a valid one: [toLowerCase] is modelled on the letters [A-Z]
    only. *)
Module Validators.

Definition between (lo hi : N) (c : ascii) : bool :=
  (lo <=? N_of_ascii c)%N && (N_of_ascii c <=? hi)%N.

(** [[a-z]], [[A-Z]], [[0-9]] *)
Definition is_lower : ascii -> bool := between 97 122.
Definition is_upper : ascii -> bool := between 65 90.
Definition is_digit : ascii -> bool := between 48 57.

Definition to_lower (c : ascii) : ascii :=
  if is_upper c then ascii_of_N (N_of_ascii c + 32) else c.

Fixpoint map_chars (f : ascii -> ascii) (s : string) : string :=
  match s with
  | EmptyString => EmptyString
  | String c rest => String (f c) (map_chars f rest)
  end.

Fixpoint all_chars (P : ascii -> bool) (s : string) : bool :=
  match s with
  | EmptyString => true
  | String c rest => P c && all_chars P rest
  end.

(** [.replace(/([a-z])([A-Z])/g, '$1-$2')] *)
Fixpoint hyphenate (s : string) : string :=
  match s with
  | EmptyString => EmptyString
  | String c rest =>
      match rest with
      | String c' _ =>
          if is_lower c && is_upper c'
          then String c (String "-" (hyphenate rest))
          else String c (hyphenate rest)
      | EmptyString => String c EmptyString
      end
  end.

(** [.replace(/_/g, '-')] *)
Definition underscores_to_hyphens : string -> string :=
  map_chars (fun c => if Ascii.eqb c "_" then "-"%char else c).

Definition toKebabCase (name : string) : string :=
  map_chars to_lower (underscores_to_hyphens (hyphenate name)).

Inductive ValidationResult : Type :=
| Valid
| Invalid (error : string).

(** [[a-zA-Z_$]] and [[a-zA-Z0-9_$]] *)
Definition identifier_start (c : ascii) : bool :=
  is_lower c || is_upper c || Ascii.eqb c "_" || Ascii.eqb c "$".
Definition identifier_part (c : ascii) : bool :=
  identifier_start c || is_digit c.

(** [/^[a-zA-Z_$][a-zA-Z0-9_$]*$/.test(name)] *)
Definition is_identifier (name : string) : bool :=
  match name with
  | EmptyString => false
  | String c rest => identifier_start c && all_chars identifier_part rest
  end.

Definition validateComponentName (name : string) : ValidationResult :=
  if bool_decide (name = "") then Invalid "Component name is empty"
  else if negb (is_identifier name)
  then Invalid ("Component name " +:+ dquote +:+ name +:+ dquote
                +:+ " is not a valid JavaScript identifier. Use alphanumerics, _, or $.")
  else Valid.

(** The characters of a kebab-cased component name. *)
Definition kebab_char (c : ascii) : bool :=
  is_lower c || is_digit c || Ascii.eqb c "-" || Ascii.eqb c "$".

End Validators.

(** ** Further sample capabilities *)

Module Demo.

Definition object_schema : JsonSchema :=
  mkJsonSchema "object"
    (Some [("topic", mkPropertySchema "string" (Some "What to write about"));
           ("tone", mkPropertySchema "string" None)])
    (Some ["topic"]).

(** A schema that accepts every input as it is. *)
Definition accepting : StandardSchema :=
  mkStandardSchema "zod" (fun v => Returned v) object_schema.

Definition name_required : MCPError :=
  mcpError INVALID_PARAMS (Some "name is required") (Some (JObj [("field", JStr "name")])).

(** A schema whose validation throws an [MCPError]. *)
Definition guarding : StandardSchema :=
  mkStandardSchema "valibot" (fun _ => Thrown (ExnMCPError name_required))
    object_schema.

(** A schema of a vendor that [toJsonSchema] does not know. *)
Definition foreign : StandardSchema :=
  mkStandardSchema "yup" (fun v => Returned v) object_schema.

Definition hello : Tool :=
  mkTool (Some accepting) "says hello" (Some accepting)
    (Some (fun _ => Returned (TValue (JStr "Hello Ada")))) None None None None.

Definition guarded : Tool :=
  mkTool (Some guarding) "guarded" None
    (Some (fun _ => Returned (TValue (JStr "ok")))) None None None None.

Definition silent : Tool := tool "no handler".

Definition legacy : Tool :=
  mkTool (Some foreign) "legacy" None
    (Some (fun _ => Returned (TValue (JStr "ok")))) None None None None.

Definition topic : Prompt :=
  mkPrompt (Some accepting) "writes about a topic"
    (Some (fun _ => Returned (PMessage None None "Write about it."))).

Definition guarded_prompt : Prompt :=
  mkPrompt (Some guarding) "guarded"
    (Some (fun _ => Returned (PMessage None None "ok"))).

Definition silent_prompt : Prompt := prompt "no handler".

Definition silent_resource : Resource := resource "no handler".

(** A resource whose handler throws an [MCPError]. *)
Definition broken : Resource :=
  mkResource "broken" (Some "text/plain") (Some "file:///broken") None
    (Some (fun _ => Thrown (ExnMCPError name_required))) None.

Definition server : MCPServer :=
  mkMCPServer None
    (Some [("myGreetingWidget", Sample.my_greeting);
           ("greetingWidget", Sample.greeting)])
    (Some [("hello", hello); ("guarded", guarded); ("silent", silent)])
    (Some [("topic", topic); ("guarded", guarded_prompt); ("silent", silent_prompt)])
    (Some [("readme", Sample.readme); ("userFile", Sample.user_file);
           ("broken", broken)])
    "demo" "1.0.0".

(** The same server with the tool [legacy] added. *)
Definition legacy_server : MCPServer :=
  mkMCPServer None None
    (Some [("hello", hello); ("legacy", legacy)])
    None None "legacy" "1.0.0".

(** A templated resource whose handler throws an [MCPError]. *)
Definition broken_template : Resource :=
  mkResource "broken template" (Some "text/plain") (Some "file:///logs/{day}") None
    (Some (fun _ => Thrown (ExnMCPError name_required))) None.

Definition template_server : MCPServer :=
  mkMCPServer None None None None
    (Some [("readme", Sample.readme); ("logs", broken_template)])
    "templates" "1.0.0".

Definition call (name : string) : RPCRequest :=
  mkRPCRequest "tools/call" (mkParams name (JObj [("name", JStr "Ada")]) "") (JNum 7).

Definition get_prompt (name : string) : RPCRequest :=
  mkRPCRequest "prompts/get" (mkParams name (JObj [("topic", JStr "tea")]) "") (JNum 7).

Definition read (uri : string) : RPCRequest :=
  mkRPCRequest "resources/read" (mkParams "" JUndefined uri) (JNum 7).

Definition on (rpc : RPCRequest) : RequestEvent :=
  mkRequestEvent "/mcp" "https://app.example" "POST" None (Some rpc).

Definition handler : MCPHandler :=
  new_MCPHandler server (on (call "hello")) "https://app.example" "uuid".

End Demo.

(** * Properties *)

(** ** Facts about strings *)

Section StringFacts.

Lemma append_cons c (s t : string) : String c s +:+ t = String c (s +:+ t).
Proof. reflexivity. Qed.

Lemma append_empty_r (s : string) : s +:+ "" = s.
Proof. induction s as [|c s IH]; [done|]. by rewrite append_cons, IH. Qed.

Lemma append_assoc (s t u : string) : (s +:+ t) +:+ u = s +:+ t +:+ u.
Proof. induction s as [|c s IH]; [done|]. by rewrite !append_cons, IH. Qed.

Lemma rev_app_append (s t : string) :
  String.rev_app s t = String.rev_app s "" +:+ t.
Proof.
  revert t. induction s as [|c s IH]; intros t; [done|].
  simpl. rewrite (IH (String c t)), (IH (String c "")).
  by rewrite append_assoc.
Qed.

Lemma rev_cons c (s : string) : String.rev (String c s) = String.rev s +:+ String c "".
Proof. unfold String.rev. simpl. apply rev_app_append. Qed.

Lemma prefix_empty (s : string) : String.prefix "" s = true.
Proof. by destruct s. Qed.

Lemma prefix_cons c (s t : string) :
  String.prefix (String c s) (String c t) = String.prefix s t.
Proof. simpl. by destruct (ascii_dec c c). Qed.

Lemma prefix_append (p s : string) : String.prefix p (p +:+ s) = true.
Proof.
  induction p as [|c p IH]; [apply prefix_empty|].
  by rewrite append_cons, prefix_cons.
Qed.

Lemma includes_prefix (s t : string) :
  String.prefix t s = true -> JsString.includes s t = true.
Proof. intros H. destruct s; cbn [JsString.includes]; by rewrite H. Qed.

(** The first piece of a split is the cut at the separator. *)
Lemma split_go_head (sep s cur : string) :
  exists pieces,
    JsString.split_go sep 0 cur s = (String.rev cur +:+ cut sep s) :: pieces.
Proof.
  revert cur. induction s as [|c s IH]; intros cur.
  - exists []. simpl. by rewrite append_empty_r.
  - cbn [JsString.split_go cut]. destruct (String.prefix sep (String c s)).
    + eexists. by rewrite append_empty_r.
    + destruct (IH (String c cur)) as [pieces ->]. exists pieces.
      by rewrite rev_cons, append_assoc.
Qed.

Lemma split_head (s sep : string) :
  head (JsString.split s sep) = Some (cut sep s).
Proof.
  unfold JsString.split. by destruct (split_go_head sep s "") as [pieces ->].
Qed.

(** The URI of a widget splits into the scheme and the rest. *)
Lemma split_widget_uri (rest : string) :
  JsString.split ("widget://" +:+ rest) "//" !! 1%nat = Some (cut "//" rest).
Proof.
  assert (JsString.split ("widget://" +:+ rest) "//"
          = "widget:" :: JsString.split_go "//" 0 "" rest) as ->.
  { by destruct rest. }
  by destruct (split_go_head "//" rest "") as [pieces ->].
Qed.

(** The token extracted from a widget's own URI is a prefix of its
    identifier. *)
Lemma id_token_prefix (i : string) : String.prefix (id_token i) i = true.
Proof.
  unfold id_token. induction i as [|c i IH]; [done|].
  rewrite append_cons. cbn [cut].
  destruct (String.prefix "//" (String c (i +:+ ".js"))); [done|].
  cbn [cut]. destruct (String.prefix "." (String c _)); [done|].
  by rewrite prefix_cons.
Qed.

Lemma id_token_included (i : string) : JsString.includes i (id_token i) = true.
Proof. apply includes_prefix, id_token_prefix. Qed.

End StringFacts.

(** ** Facts about the template test *)

Section TemplateFacts.

Lemma template_scan_open (mid post : string) :
  no_brace mid = true -> template_scan true (mid +:+ "}" +:+ post) = true.
Proof.
  induction mid as [|c mid IH]; [done|].
  rewrite append_cons. cbn [no_brace template_scan].
  intros [[Ho Hc]%andb_prop Hmid]%andb_prop.
  apply negb_true_iff in Ho, Hc. rewrite Ho, Hc. auto.
Qed.

Lemma template_scan_complete (pre mid post : string) (open : bool) :
  no_brace mid = true ->
  template_scan open (pre +:+ "{" +:+ mid +:+ "}" +:+ post) = true.
Proof.
  intros Hmid. revert open. induction pre as [|c pre IH]; intros open.
  - cbn. by apply template_scan_open.
  - rewrite append_cons. cbn [template_scan].
    destruct (Ascii.eqb c "{"); [apply IH|].
    destruct (Ascii.eqb c "}"); [|apply IH].
    destruct open; [done|apply IH].
Qed.

Lemma has_placeholder_cons c (uri : string) :
  has_placeholder uri -> has_placeholder (String c uri).
Proof.
  intros (pre & mid & post & -> & Hmid).
  exists (String c pre), mid, post. by rewrite append_cons.
Qed.

Lemma template_scan_sound (uri : string) (open : bool) :
  template_scan open uri = true ->
  (open = true /\ exists mid post,
      uri = mid +:+ "}" +:+ post /\ no_brace mid = true)
  \/ has_placeholder uri.
Proof.
  revert open. induction uri as [|c uri IH]; intros open; [done|].
  cbn [template_scan].
  destruct (Ascii.eqb c "{") eqn:Ho.
  { apply Ascii.eqb_eq in Ho as ->. intros H. right.
    destruct (IH _ H) as [(_ & mid & post & -> & Hmid)|Hp].
    - by exists "", mid, post.
    - by apply has_placeholder_cons. }
  destruct (Ascii.eqb c "}") eqn:Hc.
  { apply Ascii.eqb_eq in Hc as ->. destruct open.
    - intros _. left. split; [done|]. by exists "", uri.
    - intros H. right. destruct (IH _ H) as [(? & _)|Hp]; [done|].
      by apply has_placeholder_cons. }
  intros H. destruct (IH _ H) as [(-> & mid & post & -> & Hmid)|Hp].
  - left. split; [done|]. exists (String c mid), post. split; [done|].
    cbn [no_brace]. by rewrite Ho, Hc.
  - right. by apply has_placeholder_cons.
Qed.

(** The test of the sources holds exactly of the URIs with a placeholder. *)
Lemma isTemplate_spec (uri : string) :
  isTemplate uri = true <-> has_placeholder uri.
Proof.
  split.
  - intros H. by destruct (template_scan_sound _ _ H) as [(? & _)|].
  - intros (pre & mid & post & -> & Hmid). by apply template_scan_complete.
Qed.

Lemma isTemplate_false (uri : string) :
  isTemplate uri = false <-> ~ has_placeholder uri.
Proof. rewrite <- isTemplate_spec. by destruct (isTemplate uri). Qed.

End TemplateFacts.

(** ** Facts about [find] and the registries *)

Section RegistryFacts.

Context {A : Type}.

Lemma find_first (P : A -> bool) (l pre post : list A) (x : A) :
  l = (pre ++ x :: post)%list ->
  Forall (fun y => P y = false) pre ->
  P x = true ->
  find P l = Some x.
Proof.
  intros -> Hpre Hx. induction Hpre as [|y pre Hy _ IH]; simpl.
  - by rewrite Hx.
  - by rewrite Hy.
Qed.

Lemma find_nothing (P : A -> bool) (l : list A) :
  Forall (fun y => P y = false) l -> find P l = None.
Proof. induction 1 as [|y l Hy _ IH]; simpl; [done|]. by rewrite Hy. Qed.

Lemma find_exists (P : A -> bool) (l : list A) (x : A) :
  In x l -> P x = true -> exists y, find P l = Some y /\ P y = true /\ In y l.
Proof.
  induction l as [|z l IH]; [done|]. intros [->|Hin] Hx; simpl.
  - rewrite Hx. eauto.
  - destruct (P z) eqn:Hz; [eauto|].
    destruct (IH Hin Hx) as (y & ? & ? & ?). eauto.
Qed.

Lemma get_property_In (key : string) (obj : list (string * A)) (v : A) :
  get_property key obj = Some v -> In (key, v) obj.
Proof.
  induction obj as [|[k w] obj IH]; [done|]. simpl.
  destruct (String.eqb k key) eqn:Hk.
  - apply String.eqb_eq in Hk as ->. intros [= ->]. by left.
  - intros H. right. by apply IH.
Qed.

Lemma get_property_non_empty (key : string)
    (registry : option (list (string * A))) (v : A) :
  get_property key (entries registry) = Some v -> non_empty registry = true.
Proof. by destruct registry as [[|? ?]|]. Qed.

Lemma In_non_empty (e : string * A) (registry : option (list (string * A))) :
  In e (entries registry) -> non_empty registry = true.
Proof. by destruct registry as [[|? ?]|]. Qed.

End RegistryFacts.

(** ** The HTTP entry point *)

Section EntryPoint.

Variable safeStringify : JSValue -> string.
Variable builtins : RequestEvent -> NativeOutcome.

(** A POST whose method resolves to a function of the table is answered
    from what that function settles to. *)
Lemma handleMCP_method srv ev uuid rpc fname arity m :
  rpc_post ev rpc ->
  walk mpcHandler (JsString.split (rpc_method rpc) "/")
    = Returned (Fn fname arity m) ->
  handleMCP safeStringify builtins srv ev uuid
    = respond (session_id ev uuid) (rpc_id rpc)
        (call_method safeStringify (request_handler srv ev uuid) m (rpc_params rpc)).
Proof.
  intros (Hpath & Hpost & Hjson) Hwalk.
  unfold handleMCP. rewrite Hpath, Hpost, Hjson, Hwalk. cbn.
  unfold request_handler, respond, success.
  by destruct (call_method _ _ _ _) as [[?|?]|?].
Qed.

(** A POST whose method resolves to an object of the table is answered
    with [INTERNAL_ERROR]: calling the object throws inside the [try]. *)
Lemma handleMCP_object srv ev uuid rpc props :
  rpc_post ev rpc ->
  walk mpcHandler (JsString.split (rpc_method rpc) "/") = Returned (Obj props) ->
  handleMCP safeStringify builtins srv ev uuid
    = Respond (errorResponse (inl INTERNAL_ERROR) (session_id ev uuid)).
Proof.
  intros (Hpath & Hpost & Hjson) Hwalk.
  unfold handleMCP. by rewrite Hpath, Hpost, Hjson, Hwalk.
Qed.

(** Segments that name nothing in [t] leave the walk where it is. *)
Lemma walk_unresolved (t : HandlerValue) (keys : list string) :
  Forall (fun key => step t key = Returned t) keys ->
  walk t keys = Returned t.
Proof. induction 1 as [|key keys Hkey _ IH]; [done|]. cbn. by rewrite Hkey. Qed.

(** A POST none of whose method segments names an entry of the table is
    answered with [INTERNAL_ERROR]. *)
Lemma unknown_segments_internal_error srv ev uuid rpc :
  rpc_post ev rpc ->
  Forall (fun key => step mpcHandler key = Returned mpcHandler)
         (JsString.split (rpc_method rpc) "/") ->
  handleMCP safeStringify builtins srv ev uuid
    = Respond (errorResponse (inl INTERNAL_ERROR) (session_id ev uuid)).
Proof.
  intros Hpost Hkeys. eapply handleMCP_object; [done|].
  by apply walk_unresolved.
Qed.

(** The guard [if (!handlerMethod)] is reached through a property holding a
    falsy primitive, such as the [length] of a function without
    parameters. *)
Example guard_reached_through_length srv uuid params :
  handleMCP safeStringify builtins srv (Sample.post "initialize/length" params) uuid
    = Respond (errorResponse (inl METHOD_NOT_FOUND) "s-1").
Proof. done. Qed.

(** C1, as the code behaves: the unknown method ["foo/bar"] and the
    non-callable leaf ["tools"] are both answered with the INTERNAL_ERROR
    response, which is not the METHOD_NOT_FOUND response, whatever the
    server and the parameters. *)
Theorem unresolved_method_internal_error srv uuid params :
  handleMCP safeStringify builtins srv (Sample.post "foo/bar" params) uuid
    = Respond (errorResponse (inl INTERNAL_ERROR) "s-1")
  /\ handleMCP safeStringify builtins srv (Sample.post "tools" params) uuid
    = Respond (errorResponse (inl INTERNAL_ERROR) "s-1")
  /\ errorResponse (inl INTERNAL_ERROR) "s-1"
     <> errorResponse (inl METHOD_NOT_FOUND) "s-1".
Proof.
  split_and!.
  - apply (unknown_segments_internal_error srv (Sample.post "foo/bar" params) uuid
             (mkRPCRequest "foo/bar" params (JNum 1))); [done|].
    by repeat constructor.
  - by apply (handleMCP_object srv (Sample.post "tools" params) uuid
                (mkRPCRequest "tools" params (JNum 1))
                [("call", Fn "call" 1 tools_call); ("list", Fn "list" 1 tools_list)]).
  - intros [=].
Qed.

(** C4: a POST for a method whose governing registry is empty is answered
    with METHOD_NOT_FOUND: [tools/list] and [tools/call] without tools,
    [prompts/list] and [prompts/get] without prompts,
    [resources/templates/list] without resources, [resources/list] and
    [resources/read] without resources and without widgets. *)
Theorem empty_registry_method_not_found srv ev uuid rpc :
  rpc_post ev rpc ->
  let answer := handleMCP safeStringify builtins srv ev uuid in
  let not_found :=
    Respond (errorResponse (inl METHOD_NOT_FOUND) (session_id ev uuid)) in
  (non_empty (server_tools srv) = false ->
   (rpc_method rpc = "tools/list" \/ rpc_method rpc = "tools/call") ->
   answer = not_found)
  /\ (non_empty (server_prompts srv) = false ->
      (rpc_method rpc = "prompts/list" \/ rpc_method rpc = "prompts/get") ->
      answer = not_found)
  /\ (non_empty (server_resources srv) = false ->
      rpc_method rpc = "resources/templates/list" ->
      answer = not_found)
  /\ (non_empty (server_resources srv) = false ->
      non_empty (server_widgets srv) = false ->
      (rpc_method rpc = "resources/list" \/ rpc_method rpc = "resources/read") ->
      answer = not_found).
Proof.
  intros Hpost answer not_found. subst answer not_found.
  repeat split.
  - intros Hempty [Hm|Hm];
      (erewrite handleMCP_method; [|done|by rewrite Hm]); cbn;
      [unfold handle_tools_list|unfold handle_tools_call]; cbn;
      by rewrite Hempty.
  - intros Hempty [Hm|Hm];
      (erewrite handleMCP_method; [|done|by rewrite Hm]); cbn;
      [unfold handle_prompts_list|unfold handle_prompts_get]; cbn;
      by rewrite Hempty.
  - intros Hempty Hm.
    (erewrite handleMCP_method; [|done|by rewrite Hm]); cbn.
    unfold handle_resources_templates_list; cbn. by rewrite Hempty.
  - intros Hres Hwid [Hm|Hm];
      (erewrite handleMCP_method; [|done|by rewrite Hm]); cbn;
      [unfold handle_resources_list|unfold handle_resources_read]; cbn;
      by rewrite Hres, Hwid.
Qed.

(** C8, as amended: every response to a request that is neither OPTIONS nor
    GET nor DELETE, whether a success or a JSON-RPC error, carries the
    [Mcp-Session-Id] header with the caller's session identifier, or the
    fresh one when the caller sent none; every GET and every DELETE on the
    endpoint is answered with the fixed rejection, whose only header is
    [Content-Type]. (An OPTIONS request is answered by [handleCors], which
    is not among the sources.) *)
Theorem session_id_echoed srv ev uuid :
  (forall r,
      handleMCP safeStringify builtins srv ev uuid = Respond r ->
      request_method ev <> "OPTIONS" ->
      request_method ev <> "GET" ->
      request_method ev <> "DELETE" ->
      get_header "Mcp-Session-Id" r = Some (session_id ev uuid))
  /\ (JsString.startsWith (url_pathname ev) "/mcp" = true ->
      request_method ev = "GET" \/ request_method ev = "DELETE" ->
      handleMCP safeStringify builtins srv ev uuid
        = Respond handleGetDeleteMethodNotAllowed
      /\ headers handleGetDeleteMethodNotAllowed
         = [("Content-Type", "application/json")]
      /\ get_header "Mcp-Session-Id" handleGetDeleteMethodNotAllowed = None).
Proof.
  unfold handleMCP. split.
  - intros r H _ Hget Hdelete.
    destruct (JsString.startsWith _ _); [|done].
    destruct (String.eqb (request_method ev) "OPTIONS"); [done|].
    apply String.eqb_neq in Hget, Hdelete. rewrite Hget, Hdelete in H. cbn in H.
    destruct (request_json ev) as [rpc|]; [|by injection H as <-].
    destruct (walk _ _) as [hm|]; [|done].
    assert (forall settled,
      match settled with
      | Returned (HError result) =>
          Respond (errorResponse (inr result) (session_id ev uuid))
      | Returned (HResult result) =>
          Respond (mkResponse 200
                     [("Content-Type", "application/json");
                      ("Mcp-Session-Id", session_id ev uuid)]
                     (BodyResult (rpc_id rpc) result))
      | Thrown _ => Respond (errorResponse (inl INTERNAL_ERROR) (session_id ev uuid))
      end = Respond r ->
      get_header "Mcp-Session-Id" r = Some (session_id ev uuid)) as Hanswer.
    { intros [[?|?]|?]; by intros [= <-]. }
    destruct hm as [props|fname arity m|n|name|];
      try (destruct (falsy _); [by injection H as <-|by apply Hanswer in H]).
    destruct (builtins ev) as [e| |settled];
      [done|by injection H as <-|by apply Hanswer in H].
  - intros -> Hmethod. split; [|done].
    destruct Hmethod as [-> | ->]; done.
Qed.

End EntryPoint.

(** ** Tools *)

Section ToolFacts.

Variable safeStringify : JSValue -> string.
Variable builtins : RequestEvent -> NativeOutcome.

Lemma tools_call_validated srv ev dom sid nm args uri t v :
  get_property nm (entries (server_tools srv)) = Some t ->
  Tool_validate t args = Returned v ->
  handle_tools_call safeStringify (new_MCPHandler srv ev dom sid)
                    (mkParams nm args uri)
    = Returned (HResult (VCallTool
        (attach_widget t (Tool_call safeStringify t v ev sid)))).
Proof.
  intros Hget Hvalid. unfold handle_tools_call, attach_widget. cbn.
  rewrite (get_property_non_empty _ _ _ Hget), Hget, Hvalid. cbn.
  by destruct (tool_widget t).
Qed.

Lemma tools_call_rejected srv ev dom sid nm args uri t err :
  get_property nm (entries (server_tools srv)) = Some t ->
  Tool_validate t args = Thrown err ->
  handle_tools_call safeStringify (new_MCPHandler srv ev dom sid)
                    (mkParams nm args uri)
    = Returned (HError (match err with
                        | ExnMCPError e => e
                        | _ => mcpError INVALID_PARAMS None None
                        end)).
Proof.
  intros Hget Hvalid. unfold handle_tools_call. cbn.
  rewrite (get_property_non_empty _ _ _ Hget), Hget, Hvalid. cbn.
  by destruct err.
Qed.

Lemma attach_widget_content t r :
  content (attach_widget t r) = content r
  /\ isError (attach_widget t r) = isError r.
Proof. unfold attach_widget. by destruct (tool_widget t). Qed.

Lemma thrown_message_cases err :
  (forall m, error_message err = Some m -> m <> "" -> thrown_message err = m)
  /\ (error_message err = None \/ error_message err = Some "" ->
      thrown_message err = "Unknown error").
Proof.
  split.
  - intros m Hm Hne. destruct err; simplify_eq/=;
      unfold JsString.or_else; by case_decide.
  - intros [H|H]; destruct err; simplify_eq/=; try done;
      unfold JsString.or_else; case_decide; congruence.
Qed.

(** C2, as amended: when the handler of a registered tool throws anything
    but a [ToolError], [tools/call] is answered with a success response
    holding a [CallToolResult] with [isError: true] and one text block; the
    text is the exception's message when the exception is an [Error] with a
    non-empty message, and ["Unknown error"] otherwise. *)
Theorem tool_exception_becomes_error_result srv ev uuid rpc t v handler err :
  rpc_post ev rpc ->
  rpc_method rpc = "tools/call" ->
  get_property (params_name (rpc_params rpc)) (entries (server_tools srv)) = Some t ->
  Tool_validate t (params_arguments (rpc_params rpc)) = Returned v ->
  tool_handler t = Some handler ->
  handler (mkToolPayload v ev (session_id ev uuid)) = Thrown err ->
  is_ToolError err = false ->
  exists text r,
    handleMCP safeStringify builtins srv ev uuid
      = Respond (success (session_id ev uuid) (rpc_id rpc) (VCallTool r))
    /\ content r = [TextContent text]
    /\ isError r = Some true
    /\ (forall m, error_message err = Some m -> m <> "" -> text = m)
    /\ (error_message err = None \/ error_message err = Some "" ->
        text = "Unknown error").
Proof.
  intros Hpost Hm Hget Hvalid Hhandler Hthrown Hnot.
  exists (thrown_message err),
    (attach_widget t (ToolError_result (Some (thrown_message err)))).
  destruct (thrown_message_cases err) as [Hsome Hnone].
  assert (thrown_message err <> "") as Hne.
  { destruct err; cbn; unfold JsString.or_else; try done; by case_decide. }
  repeat split; [|
    rewrite (proj1 (attach_widget_content _ _)); cbn; unfold JsString.or_else;
      by case_decide
    | by rewrite (proj2 (attach_widget_content _ _)) | done | done].
  erewrite handleMCP_method; [|done|by rewrite Hm]. cbn.
  destruct (rpc_params rpc) as [nm args uri]. cbn in *.
  unfold request_handler.
  erewrite tools_call_validated; [|done..]. cbn.
  unfold Tool_call, invoke_tool_handler. rewrite Hhandler, Hthrown. cbn.
  by destruct err.
Qed.

Lemma toolMetadata_outputTemplate w :
  toolMetadata w !! "openai/outputTemplate"
    = Some (JStr ("widget://" +:+ id w +:+ ".js")).
Proof. unfold toolMetadata. by rewrite lookup_insert_eq. Qed.

Lemma spread_widget_keys_win w (own : Meta) :
  widget_keys_win w own (spread own (toolMetadata w)).
Proof.
  unfold widget_keys_win, spread. repeat split.
  - apply lookup_union_Some_l, toolMetadata_outputTemplate.
  - intros k v. apply lookup_union_Some_l.
  - intros k. apply lookup_union_r.
Qed.

Lemma mapO_In {A B} (f : A -> Outcome B) xs ys x :
  mapO f xs = Returned ys -> In x xs ->
  exists y, In y ys /\ f x = Returned y.
Proof.
  revert ys. induction xs as [|x' xs IH]; intros ys; [done|]. cbn.
  destruct (f x') as [y'|] eqn:Hx'; [|done]. cbn.
  destruct (mapO f xs) as [ys'|]; [|done]. cbn.
  intros [= <-] [->|Hin].
  - exists y'. split; [by left|done].
  - destruct (IH _ eq_refl Hin) as (y & ? & ?). exists y. split; [by right|done].
Qed.

Lemma defineTool_meta nm t w d :
  tool_widget t = Some w ->
  defineTool nm t = Returned d ->
  td_name d = nm
  /\ td_meta d = spread (opt_meta (tool_meta t)) (toolMetadata w).
Proof.
  unfold defineTool. intros ->.
  destruct (match tool_output t with Some _ => _ | None => _ end); [|done].
  destruct (match tool_schema t with Some _ => _ | None => _ end); [|done].
  cbn. by intros [= <-].
Qed.

(** C3, as amended: for a registered tool linked to a widget, the
    descriptor listed by [tools/list] and every result of [tools/call],
    error results included, carry the widget's tool metadata in [_meta],
    with ["openai/outputTemplate"] equal to ["widget://" + id + ".js"]. In
    the descriptor the widget's entries are spread over the tool's own
    metadata; in a call result they are spread over the result's own
    [_meta], of which the tool's own metadata is no part; in both they win
    on every key they share. *)
Theorem widget_metadata_in_list_and_call srv ev dom sid nm args uri t w :
  get_property nm (entries (server_tools srv)) = Some t ->
  tool_widget t = Some w ->
  let this := new_MCPHandler srv ev dom sid in
  (forall ds,
      handle_tools_list this = Returned (HResult (VListTools ds)) ->
      exists d, In d ds /\ td_name d = nm
                /\ widget_keys_win w (opt_meta (tool_meta t)) (td_meta d))
  /\ (forall v,
        Tool_validate t args = Returned v ->
        let own := Tool_call safeStringify t v ev sid in
        exists r m,
          handle_tools_call safeStringify this (mkParams nm args uri)
            = Returned (HResult (VCallTool r))
          /\ content r = content own /\ isError r = isError own
          /\ result_meta r = Some m
          /\ widget_keys_win w (opt_meta (result_meta own)) m)
  /\ (forall err,
        Tool_validate t args = Thrown err ->
        exists e,
          handle_tools_call safeStringify this (mkParams nm args uri)
            = Returned (HError e)).
Proof.
  intros Hget Hwidget this. subst this. split_and!.
  - intros ds. unfold handle_tools_list. cbn.
    rewrite (get_property_non_empty _ _ _ Hget). cbn.
    destruct (defineTools _) as [ds'|] eqn:Hds; [|done]. cbn. intros [= <-].
    destruct (mapO_In _ _ _ _ Hds (get_property_In _ _ _ Hget))
      as (d & Hin & Hd).
    destruct (defineTool_meta _ _ _ _ Hwidget Hd) as [Hname Hmeta].
    exists d. split_and!; [done..|]. rewrite Hmeta.
    apply spread_widget_keys_win.
  - intros v Hvalid own. subst own.
    erewrite tools_call_validated; [|done..].
    unfold attach_widget. rewrite Hwidget.
    eexists _, _. split_and!; [done..|]. apply spread_widget_keys_win.
  - intros err Hvalid. erewrite tools_call_rejected; [|done..]. eauto.
Qed.

(** C9: a registered tool without an input schema validates every input to
    [undefined], and [tools/call] runs its handler on the payload whose
    [input] is [undefined], whatever [params.arguments] holds. *)
Theorem schemaless_tool_input_undefined srv ev dom sid nm args uri t handler :
  get_property nm (entries (server_tools srv)) = Some t ->
  tool_schema t = None ->
  tool_handler t = Some handler ->
  Tool_validate t args = Returned JUndefined
  /\ handle_tools_call safeStringify (new_MCPHandler srv ev dom sid)
                       (mkParams nm args uri)
     = Returned (HResult (VCallTool
         (attach_widget t
            (settle safeStringify t
               (handler (mkToolPayload JUndefined ev sid)))))).
Proof.
  intros Hget Hschema Hhandler.
  assert (Tool_validate t args = Returned JUndefined) as Hvalid.
  { unfold Tool_validate. by rewrite Hschema. }
  split; [done|]. erewrite tools_call_validated; [|done..].
  unfold Tool_call, invoke_tool_handler. by rewrite Hhandler.
Qed.

(** C10: when the validation of the input throws a value that is not an
    [MCPError], [prompts/get] returns INTERNAL_ERROR while [tools/call]
    returns INVALID_PARAMS. *)
Theorem validation_failure_codes srv ev dom sid nm args uri err :
  is_MCPError err = false ->
  let this := new_MCPHandler srv ev dom sid in
  (forall p,
      get_property nm (entries (server_prompts srv)) = Some p ->
      Prompt_validate p args = Thrown err ->
      handle_prompts_get this (mkParams nm args uri)
        = Returned (HError (mcpError INTERNAL_ERROR None None)))
  /\ (forall t,
        get_property nm (entries (server_tools srv)) = Some t ->
        Tool_validate t args = Thrown err ->
        handle_tools_call safeStringify this (mkParams nm args uri)
          = Returned (HError (mcpError INVALID_PARAMS None None))).
Proof.
  intros Hnot this. subst this. split.
  - intros p Hget Hvalid. unfold handle_prompts_get. cbn.
    rewrite (get_property_non_empty _ _ _ Hget), Hget, Hvalid. cbn.
    by destruct err.
  - intros t Hget Hvalid. erewrite tools_call_rejected; [|done..].
    by destruct err.
Qed.

End ToolFacts.

(** ** Resources and widgets *)

Section ResourceFacts.

Lemma values_app {A} (pre post : list (string * A)) e registry :
  entries registry = (pre ++ e :: post)%list ->
  values registry = (map snd pre ++ e.2 :: map snd post)%list.
Proof. unfold values. intros ->. by rewrite map_app. Qed.

Lemma find_widget_by_token (i : string) (widgets : list Widget) :
  find_widget ("widget://" +:+ i +:+ ".js") widgets
    = Returned (find (fun x => JsString.includes (id x) (id_token i)) widgets).
Proof.
  unfold find_widget. destruct widgets as [|x widgets]; [done|].
  rewrite split_widget_uri. by rewrite split_head.
Qed.

(** X28: a read of ["widget://" + id + ".js"] for a registered widget
    always succeeds with one content entry of MIME
    type [text/html+skybridge]; the entry is that of the first registered
    widget whose identifier contains the token taken from the URI (the
    identifier up to its first ["//"] or ["."]), which is the widget itself
    when no widget registered before it has such an identifier. *)
Theorem widget_uri_read srv ev dom sid key w pre post nm args :
  entries (server_widgets srv) = (pre ++ (key, w) :: post)%list ->
  let uri := "widget://" +:+ id w +:+ ".js" in
  let matches (x : Widget) := JsString.includes (id x) (id_token (id w)) in
  exists w',
    find matches (values (server_widgets srv)) = Some w'
    /\ handle_resources_read (new_MCPHandler srv ev dom sid) (mkParams nm args uri)
       = Returned (HResult (VReadResource (Widget_result w' dom)))
    /\ (exists c, contents (Widget_result w' dom) = [c]
                  /\ rc_mimeType c = Some "text/html+skybridge")
    /\ (Forall (fun e => matches e.2 = false) pre -> w' = w).
Proof.
  intros Hentries uri matches.
  pose proof (values_app _ _ _ _ Hentries) as Hvalues. cbn in Hvalues.
  assert (In w (values (server_widgets srv))) as Hin.
  { rewrite Hvalues. apply in_or_app. right. by left. }
  destruct (find_exists matches _ w Hin (id_token_included (id w)))
    as (w' & Hfind & _ & _).
  exists w'. split_and!; [done| |by eexists|].
  - unfold handle_resources_read. cbn.
    assert (non_empty (server_widgets srv) = true) as ->.
    { apply (In_non_empty (key, w)). rewrite Hentries.
      apply in_or_app. right. by left. }
    rewrite andb_false_r. unfold uri, JsString.startsWith.
    rewrite prefix_append, find_widget_by_token. cbn.
    fold matches. by rewrite Hfind.
  - intros Hpre.
    assert (find matches (values (server_widgets srv)) = Some w) as Hw.
    { eapply find_first; [exact Hvalues| |apply id_token_included].
      by apply Forall_map. }
    congruence.
Qed.

(** C6: what [resources/read] makes of the handler's return value: a string
    becomes one text entry tagged with the declared MIME type; a binary
    value on a resource without MIME type becomes INTERNAL_ERROR; any other
    value becomes RESOURCE_NOT_FOUND. *)
Theorem resource_return_shapes r uri sid handler :
  resource_handler r = Some handler ->
  let returned := handler (mkResourcePayload uri sid) in
  (forall text,
      returned = Returned (RValue (JStr text)) ->
      Resource_call r uri sid
        = Returned (HResult (VReadResource (mkReadResourceResult
            [mkResourceContent uri (resource_type r) text None]))))
  /\ (forall b,
        returned = Returned (RBinary b) ->
        resource_type r = None ->
        exists e, Resource_call r uri sid = Returned (HError e)
                  /\ err_code e = mcpErrors INTERNAL_ERROR)
  /\ (forall result,
        returned = Returned result ->
        (forall b, result <> RBinary b) ->
        (forall text, result <> RValue (JStr text)) ->
        Resource_call r uri sid
          = Returned (HError (mcpError RESOURCE_NOT_FOUND None None))).
Proof.
  intros Hhandler returned. subst returned. unfold Resource_call.
  rewrite Hhandler. split_and!.
  - by intros text ->.
  - intros b -> Htype. cbn. unfold type_unset. rewrite Htype. by eexists.
  - intros result -> Hbin Hstr. cbn.
    destruct result as [b| | |[]]; try done.
    + by destruct (Hbin b).
    + by destruct (Hstr s).
Qed.

Lemma resources_read_gate srv ev dom sid payload :
  non_empty (server_resources srv) || non_empty (server_widgets srv) = true ->
  JsString.startsWith (params_uri payload) "widget://" = false ->
  handle_resources_read (new_MCPHandler srv ev dom sid) payload
    = match find (fun r => bool_decide (resource_uri r = Some (params_uri payload)))
                 (values (server_resources srv)) with
      | Some r => Resource_call r (params_uri payload) sid
      | None =>
          match find (fun r => isTemplate (default "" (resource_uri r)))
                     (values (server_resources srv)) with
          | Some r => Resource_call r (params_uri payload) sid
          | None => Returned (HError (mcpError RESOURCE_NOT_FOUND None None))
          end
      end.
Proof.
  intros Hgate Hscheme. unfold handle_resources_read. cbn.
  rewrite <- negb_orb, Hgate, Hscheme. cbn.
  destruct (find _ _); [done|]. by destruct (find _ _).
Qed.

Lemma values_non_empty {A} (registry : option (list (string * A))) pre x post :
  values registry = (pre ++ x :: post)%list -> non_empty registry = true.
Proof.
  unfold values, entries. destruct registry as [[|? ?]|]; cbn; try done.
  all: by destruct pre.
Qed.

(** C7, as amended: a [resources/read] whose URI is not a [widget://] one
    goes to the first resource whose configured URI is the requested one;
    failing that, to the first resource whose configured URI contains a
    brace-delimited placeholder, whatever the requested URI is; failing
    that, it returns RESOURCE_NOT_FOUND when a resource or a widget is
    registered, and METHOD_NOT_FOUND when none is. *)
Theorem resource_lookup_order srv ev dom sid payload :
  JsString.startsWith (params_uri payload) "widget://" = false ->
  let uri := params_uri payload in
  let rs := values (server_resources srv) in
  let answer := handle_resources_read (new_MCPHandler srv ev dom sid) payload in
  (forall pre r post,
      rs = (pre ++ r :: post)%list ->
      Forall (fun r0 => resource_uri r0 <> Some uri) pre ->
      resource_uri r = Some uri ->
      answer = Resource_call r uri sid)
  /\ (forall pre r post,
        rs = (pre ++ r :: post)%list ->
        Forall (fun r0 => resource_uri r0 <> Some uri) rs ->
        Forall (fun r0 => ~ has_placeholder (default "" (resource_uri r0))) pre ->
        has_placeholder (default "" (resource_uri r)) ->
        answer = Resource_call r uri sid)
  /\ (non_empty (server_resources srv) || non_empty (server_widgets srv) = true ->
      Forall (fun r0 => resource_uri r0 <> Some uri
                        /\ ~ has_placeholder (default "" (resource_uri r0))) rs ->
      answer = Returned (HError (mcpError RESOURCE_NOT_FOUND None None)))
  /\ (non_empty (server_resources srv) || non_empty (server_widgets srv) = false ->
      answer = Returned (HError (mcpError METHOD_NOT_FOUND None None))).
Proof.
  intros Hscheme uri rs answer. subst uri rs answer. split_and!.
  - intros pre r post Hrs Hpre Hr.
    rewrite resources_read_gate;
      [|by rewrite (values_non_empty _ _ _ _ Hrs)|done].
    erewrite find_first; [done|exact Hrs| |by apply bool_decide_eq_true].
    eapply Forall_impl; [exact Hpre|]. intros r0 ?. by apply bool_decide_eq_false.
  - intros pre r post Hrs Hnone Hpre Hr.
    rewrite resources_read_gate;
      [|by rewrite (values_non_empty _ _ _ _ Hrs)|done].
    rewrite find_nothing.
    2:{ eapply Forall_impl; [exact Hnone|]. intros r0 ?.
        by apply bool_decide_eq_false. }
    erewrite find_first; [done|exact Hrs| |by apply isTemplate_spec].
    eapply Forall_impl; [exact Hpre|]. intros r0 ?. by apply isTemplate_false.
  - intros Hgate Hnone. rewrite resources_read_gate; [|done..].
    rewrite !find_nothing; [done|..].
    + eapply Forall_impl; [exact Hnone|]. intros r0 [_ ?].
      by apply isTemplate_false.
    + eapply Forall_impl; [exact Hnone|]. intros r0 [? _].
      by apply bool_decide_eq_false.
  - intros Hgate. unfold handle_resources_read. cbn.
    by rewrite <- negb_orb, Hgate.
Qed.

End ResourceFacts.

(** ** The properties at the sample servers *)

Import Sample.

(** The amended C2 at the tool [failing] of the server [full]. *)
Lemma tool_exception_witness :
  exists text r,
    handleMCP stringify builtins_throw full (on call_failing) "uuid"
      = Respond (success "s-1" (JNum 1) (VCallTool r))
    /\ content r = [TextContent text]
    /\ isError r = Some true
    /\ (forall m, error_message (ExnError "") = Some m -> m <> "" -> text = m)
    /\ (error_message (ExnError "") = None \/ error_message (ExnError "") = Some "" ->
        text = "Unknown error").
Proof.
  apply (tool_exception_becomes_error_result stringify builtins_throw full (on call_failing)
           "uuid" call_failing failing JUndefined
           (fun _ => Thrown (ExnError "")) (ExnError ""));
    [by split_and!|reflexivity..].
Defined.

(** C2 as stated fails: the handler of [failing] throws an [Error] whose
    message is the empty string, and the text block of the result is
    ["Unknown error"]. *)
Lemma tool_exception_text_not_message :
  tool_handler failing = Some (fun _ => Thrown (ExnError ""))
  /\ is_ToolError (ExnError "") = false
  /\ error_message (ExnError "") = Some ""
  /\ handleMCP stringify builtins_throw full (on call_failing) "uuid"
     = Respond (success "s-1" (JNum 1)
         (VCallTool (mkCallToolResult [TextContent "Unknown error"] (Some true) None None)))
  /\ TextContent "Unknown error" <> TextContent "".
Proof. by split_and!. Qed.

(** The amended C3 at the tool [greet] of the server [full], linked to the widget
    [greeting]: its descriptor and its call result. *)
Lemma widget_metadata_witness :
  (exists ds d,
      handle_tools_list (handler_of full) = Returned (HResult (VListTools ds))
      /\ In d ds /\ td_name d = "greet"
      /\ widget_keys_win greeting (opt_meta (tool_meta greet)) (td_meta d))
  /\ (exists r m,
        handle_tools_call stringify (handler_of full) greet_params
          = Returned (HResult (VCallTool r))
        /\ content r = [TextContent "[value]"] /\ isError r = None
        /\ result_meta r = Some m
        /\ widget_keys_win greeting ∅ m).
Proof.
  pose proof (widget_metadata_in_list_and_call stringify full get
                "https://cdn.example" "s-1" "greet"
                (JObj [("name", JStr "Ada")]) "" greet greeting
                eq_refl eq_refl) as (Hlist & Hcall & _).
  split.
  - destruct (Hlist _ eq_refl) as (d & Hd). eexists; exists d. split; [reflexivity|exact Hd].
  - destruct (Hcall JUndefined eq_refl) as (r & m & Hr). by exists r, m.
Defined.

(** C3 as stated fails: the tool [greet] has the key ["version"] in its own
    metadata, which the widget's metadata does not have, and the result of
    calling it has no ["version"]: the widget metadata is not spread over the
    tool's own metadata there. *)
Lemma call_result_without_tool_metadata :
  get_property "greet" (entries (server_tools full)) = Some greet
  /\ tool_widget greet = Some greeting
  /\ opt_meta (tool_meta greet) !! "version" = Some (JStr "1.0")
  /\ toolMetadata greeting !! "version" = None
  /\ exists r,
       handle_tools_call stringify (handler_of full) greet_params
         = Returned (HResult (VCallTool r))
       /\ opt_meta (result_meta r) !! "version" = None
       /\ ~ widget_keys_win greeting (opt_meta (tool_meta greet))
                            (opt_meta (result_meta r)).
Proof.
  split_and!; [done..|].
  eexists. split_and!; [reflexivity|done|].
  intros (_ & _ & Hother). by specialize (Hother "version" eq_refl).
Qed.

(** C4 at the server [bare], which has no registry. *)
Lemma empty_registry_witness :
  handleMCP stringify builtins_throw bare (on (request "tools/list")) "uuid"
    = Respond (errorResponse (inl METHOD_NOT_FOUND) "s-1")
  /\ handleMCP stringify builtins_throw bare (on (request "prompts/get")) "uuid"
    = Respond (errorResponse (inl METHOD_NOT_FOUND) "s-1")
  /\ handleMCP stringify builtins_throw bare (on (request "resources/templates/list")) "uuid"
    = Respond (errorResponse (inl METHOD_NOT_FOUND) "s-1")
  /\ handleMCP stringify builtins_throw bare (on (request "resources/read")) "uuid"
    = Respond (errorResponse (inl METHOD_NOT_FOUND) "s-1").
Proof.
  assert (forall m, rpc_post (on (request m)) (request m)) as Hpost by done.
  split_and!.
  - apply (proj1 (empty_registry_method_not_found stringify builtins_throw bare _ "uuid" _
                    (Hpost "tools/list")) eq_refl (or_introl eq_refl)).
  - apply (proj1 (proj2 (empty_registry_method_not_found stringify builtins_throw bare _ "uuid" _
                    (Hpost "prompts/get"))) eq_refl (or_intror eq_refl)).
  - apply (proj1 (proj2 (proj2 (empty_registry_method_not_found stringify builtins_throw bare _
                    "uuid" _ (Hpost "resources/templates/list")))) eq_refl eq_refl).
  - apply (proj2 (proj2 (proj2 (empty_registry_method_not_found stringify builtins_throw bare _
                    "uuid" _ (Hpost "resources/read")))) eq_refl eq_refl
                 (or_intror eq_refl)).
Defined.

(** X28 at the only widget of the server [full]. *)
Lemma widget_uri_witness :
  exists w',
    find (fun x => JsString.includes (id x) (id_token "greeting"))
         (values (server_widgets full)) = Some w'
    /\ handle_resources_read (handler_of full) (read "widget://greeting.js")
       = Returned (HResult (VReadResource (Widget_result w' "https://cdn.example")))
    /\ (exists c, contents (Widget_result w' "https://cdn.example") = [c]
                  /\ rc_mimeType c = Some "text/html+skybridge")
    /\ (Forall (fun e : string * Widget =>
                  JsString.includes (id e.2) (id_token "greeting") = false) []
        -> w' = greeting).
Proof.
  apply (widget_uri_read full get "https://cdn.example" "s-1"
           "greetingWidget" greeting [] [] "" JUndefined eq_refl).
Defined.

(** C5, as the code behaves: with the widget [my-greeting] registered
    before [greeting], a read of ["widget://greeting.js"], the URI of the
    registered widget [greeting], is answered with the document of
    [my-greeting] and not with that of [greeting]. *)
Lemma widget_uri_resolves_to_other :
  In ("greetingWidget", greeting) (entries (server_widgets two_widgets))
  /\ handle_resources_read (handler_of two_widgets)
       (read ("widget://" +:+ id greeting +:+ ".js"))
     = Returned (HResult (VReadResource (Widget_result my_greeting "https://cdn.example")))
  /\ Widget_result my_greeting "https://cdn.example"
     <> Widget_result greeting "https://cdn.example".
Proof.
  split_and!; [right; by left|done|].
  intros H. apply (f_equal contents) in H. by injection H.
Qed.

(** C6 at the resources of the server [full]: [readme] returns a string,
    [user_file] a binary value without a declared MIME type, [counter] a
    number. *)
Lemma resource_return_witness :
  Resource_call readme "file:///readme" "s-1"
    = Returned (HResult (VReadResource (mkReadResourceResult
        [mkResourceContent "file:///readme" (Some "text/plain") "hello" None])))
  /\ (exists e, Resource_call user_file "file:///users/7" "s-1" = Returned (HError e)
                /\ err_code e = mcpErrors INTERNAL_ERROR)
  /\ Resource_call counter "counter://value" "s-1"
     = Returned (HError (mcpError RESOURCE_NOT_FOUND None None)).
Proof.
  split_and!.
  - apply (proj1 (resource_return_shapes readme "file:///readme" "s-1" _ eq_refl)
             "hello" eq_refl).
  - apply (proj1 (proj2 (resource_return_shapes user_file "file:///users/7" "s-1"
                           _ eq_refl)) (BinArrayBuffer [x68; x69]) eq_refl eq_refl).
  - apply (proj2 (proj2 (resource_return_shapes counter "counter://value" "s-1"
                           _ eq_refl)) (RValue (JNum 7)) eq_refl); done.
Defined.

(** The amended C7: at the server [full], the URI of [readme] goes to
    [readme] and an unregistered URI goes to the first templated resource,
    [user_file]; at [plain_resources], which has no template, an
    unregistered URI is not found; at [bare] the method itself is not
    found. *)
Lemma resource_lookup_witness :
  handle_resources_read (handler_of full) (read "file:///readme")
    = Resource_call readme "file:///readme" "s-1"
  /\ handle_resources_read (handler_of full) (read "mailto:nobody")
    = Resource_call user_file "mailto:nobody" "s-1"
  /\ handle_resources_read (handler_of plain_resources) (read "mailto:nobody")
    = Returned (HError (mcpError RESOURCE_NOT_FOUND None None))
  /\ handle_resources_read (handler_of bare) (read "mailto:nobody")
    = Returned (HError (mcpError METHOD_NOT_FOUND None None)).
Proof.
  assert (~ has_placeholder "file:///readme") as Hreadme
    by (by apply isTemplate_false).
  assert (~ has_placeholder "counter://value") as Hcounter
    by (by apply isTemplate_false).
  assert (has_placeholder "file:///users/{id}") as Huser
    by (by apply isTemplate_spec).
  split_and!.
  - apply (proj1 (resource_lookup_order full get "https://cdn.example" "s-1"
                    (read "file:///readme") eq_refl)
             [] readme [user_file; counter] eq_refl); [constructor|done].
  - apply (proj1 (proj2 (resource_lookup_order full get "https://cdn.example" "s-1"
                    (read "mailto:nobody") eq_refl))
             [readme] user_file [counter] eq_refl);
      [by repeat constructor|by repeat constructor|done].
  - apply (proj1 (proj2 (proj2 (resource_lookup_order plain_resources get
                    "https://cdn.example" "s-1" (read "mailto:nobody") eq_refl)))
             eq_refl). by repeat constructor.
  - apply (proj2 (proj2 (proj2 (resource_lookup_order bare get
                    "https://cdn.example" "s-1" (read "mailto:nobody") eq_refl)))
             eq_refl).
Defined.

(** C7 as stated fails: at the server [bare] no resource matches the URI and
    none is templated, and the answer is METHOD_NOT_FOUND, not
    RESOURCE_NOT_FOUND. *)
Lemma resource_lookup_gated :
  JsString.startsWith "mailto:nobody" "widget://" = false
  /\ values (server_resources bare) = []
  /\ handle_resources_read (handler_of bare) (read "mailto:nobody")
     = Returned (HError (mcpError METHOD_NOT_FOUND None None))
  /\ mcpError METHOD_NOT_FOUND None None <> mcpError RESOURCE_NOT_FOUND None None.
Proof. by split_and!. Qed.

(** The amended C8 at a [ping] of session ["s-1"], at a malformed body
    without a session header, and at a GET. *)
Lemma session_id_witness :
  get_header "Mcp-Session-Id" (success "s-1" (JNum 1) VEmpty) = Some "s-1"
  /\ get_header "Mcp-Session-Id" (errorResponse (inl PARSE_ERROR) "uuid")
     = Some "uuid"
  /\ handleMCP stringify builtins_throw full get "uuid"
     = Respond handleGetDeleteMethodNotAllowed.
Proof.
  split_and!.
  - apply (proj1 (session_id_echoed stringify builtins_throw full
                    (on (request "ping")) "uuid") _ eq_refl); discriminate.
  - apply (proj1 (session_id_echoed stringify builtins_throw full
                    (mkRequestEvent "/mcp" "https://app.example" "POST" None None)
                    "uuid") _ eq_refl); discriminate.
  - apply (proj2 (session_id_echoed stringify builtins_throw full get "uuid")
             eq_refl (or_introl eq_refl)).
Defined.

(** C8 as stated fails: the rejection of a GET carries no [Mcp-Session-Id]
    header, although the caller sent one. *)
Lemma get_rejection_without_session_id :
  header_session_id get = Some "s-1"
  /\ handleMCP stringify builtins_throw full get "uuid" = Respond handleGetDeleteMethodNotAllowed
  /\ status handleGetDeleteMethodNotAllowed = 405
  /\ get_header "Mcp-Session-Id" handleGetDeleteMethodNotAllowed = None.
Proof. by split_and!. Qed.

(** C9 at the tool [greet], which has no input schema: the handler echoes
    its input, and the result shows [undefined], not the arguments. *)
Lemma schemaless_tool_witness :
  Tool_validate greet (params_arguments greet_params) = Returned JUndefined
  /\ handle_tools_call stringify (handler_of full) greet_params
     = Returned (HResult (VCallTool
         (attach_widget greet
            (settle stringify greet (Returned (TValue JUndefined)))))).
Proof.
  apply (schemaless_tool_input_undefined stringify full get "https://cdn.example"
           "s-1" "greet" (JObj [("name", JStr "Ada")]) "" greet
           (fun payload => Returned (TValue (input payload)))
           eq_refl eq_refl eq_refl).
Defined.

(** C10 at the prompt and the tool registered as [strict], whose schema
    rejects every input with a plain [Error]. *)
Lemma validation_failure_witness :
  handle_prompts_get (handler_of full) strict_params
    = Returned (HError (mcpError INTERNAL_ERROR None None))
  /\ handle_tools_call stringify (handler_of full) strict_params
     = Returned (HError (mcpError INVALID_PARAMS None None)).
Proof.
  pose proof (validation_failure_codes stringify full get "https://cdn.example"
                "s-1" "strict" (JObj [("name", JStr "Ada")]) ""
                (ExnError "invalid input") eq_refl) as [Hprompt Htool].
  split.
  - apply (Hprompt strict_prompt eq_refl eq_refl).
  - apply (Htool strict_tool eq_refl eq_refl).
Defined.

(** * Further properties of the dispatcher *)

(** ** Responses of the entry point *)

Section EntryPointShape.

Variable safeStringify : JSValue -> string.
Variable builtins : RequestEvent -> NativeOutcome.


(** X2: [ping] and [notifications/initialized] succeed with an empty result
    on every server, whatever its registries and the parameters sent. *)
Theorem ping_always_succeeds srv ev uuid rpc :
  rpc_post ev rpc ->
  rpc_method rpc = "ping" \/ rpc_method rpc = "notifications/initialized" ->
  handleMCP safeStringify builtins srv ev uuid
    = Respond (success (session_id ev uuid) (rpc_id rpc) VEmpty).
Proof.
  intros Hpost [Hm|Hm]; (erewrite handleMCP_method; [|done|by rewrite Hm]); done.
Qed.

(** A body that does not parse is answered with PARSE_ERROR before any
    registry is looked at. *)
Lemma malformed_body_parse_error srv ev uuid :
  JsString.startsWith (url_pathname ev) "/mcp" = true ->
  request_method ev = "POST" ->
  request_json ev = None ->
  handleMCP safeStringify builtins srv ev uuid
    = Respond (errorResponse (inl PARSE_ERROR) (session_id ev uuid)).
Proof. unfold handleMCP. by intros -> -> ->. Qed.

End EntryPointShape.


(** X2 at the server without registries. *)
Lemma ping_witness :
  handleMCP stringify builtins_throw bare (on (request "ping")) "uuid"
    = Respond (success "s-1" (JNum 1) VEmpty).
Proof.
  apply (ping_always_succeeds stringify builtins_throw bare (on (request "ping")) "uuid"
           (request "ping")); [done|by left].
Defined.

(** ** Capabilities and gates *)

Section Gates.

Lemma bind_not_error {A} (m : Outcome A) (k : A -> RpcValue) :
  (x <~ m ;; Returned (HResult (k x))) <> method_not_found.
Proof. by destruct m. Qed.

(** X3: [initialize] always succeeds, and a capability it leaves out is one
    whose listing is gated: [tools], [prompts] and [resources] are absent
    from the capabilities exactly when [tools/list], [prompts/list] and
    [resources/list] return METHOD_NOT_FOUND. A server with widgets and no
    resources advertises [resources] although [resources/templates/list]
    returns METHOD_NOT_FOUND. *)
Theorem capabilities_match_gates srv ev dom sid :
  let this := new_MCPHandler srv ev dom sid in
  exists caps,
    handle_initialize this
      = Returned (HResult (VInitialize
          (mkInitializeResult (server_name srv) (server_version srv)
                              "2025-06-18" caps)))
    /\ (cap_tools caps = false <-> handle_tools_list this = method_not_found)
    /\ (cap_prompts caps = false <-> handle_prompts_list this = method_not_found)
    /\ (cap_resources caps = false <-> handle_resources_list this = method_not_found)
    /\ (non_empty (server_resources srv) = false ->
        non_empty (server_widgets srv) = true ->
        cap_resources caps = true
        /\ handle_resources_templates_list this = method_not_found).
Proof.
  intros this. eexists. split; [reflexivity|]. cbn. split_and!.
  - unfold handle_tools_list. cbn. destruct (non_empty (server_tools srv)); cbn.
    + split; [done|]. intros H. by apply bind_not_error in H.
    + done.
  - unfold handle_prompts_list. cbn. destruct (non_empty (server_prompts srv)); cbn.
    + split; [done|]. intros H. by apply bind_not_error in H.
    + done.
  - unfold handle_resources_list. cbn.
    by destruct (non_empty (server_resources srv)),
                (non_empty (server_widgets srv)).
  - intros Hres Hwid. unfold handle_resources_templates_list. cbn.
    by rewrite Hres, Hwid.
Qed.

End Gates.

(** ** Results of a tool call *)

Section ToolResults.

Variable safeStringify : JSValue -> string.
Variable builtins : RequestEvent -> NativeOutcome.

(** X4: whatever the handler returns or throws, the result of a tool call
    has exactly one content block, which is a text or a media block and
    never a [resource_link]; [isError] is absent or [true]; and
    [structuredContent] is present only for a tool with an output schema. *)
Theorem tool_result_shape t input ev sid :
  let r := Tool_call safeStringify t input ev sid in
  (exists c, content r = [c]
             /\ ((exists text, c = TextContent text)
                 \/ (exists kind mime data, c = MediaContent kind mime data)))
  /\ (isError r = None \/ isError r = Some true)
  /\ (forall v, structuredContent r = Some v -> tool_output t <> None).
Proof.
  intros r. subst r. unfold Tool_call, settle.
  destruct (invoke_tool_handler t _) as [[m|d mt meta|u n mt meta|v]|err].
  - cbn. split_and!; [eexists; split; [done|left; by eexists]|by right|done].
  - cbn. split_and!; [eexists; split; [done|right; by eexists _, _, _]|by left|done].
  - cbn. split_and!; [eexists; split; [done|left; by eexists]|by left|].
    intros v. by destruct (tool_output t).
  - destruct v; cbn;
      (split_and!; [eexists; split; [done|left; by eexists]|by left|]);
      try done; intros v'; by destruct (tool_output t).
  - destruct err; cbn;
      (split_and!; [eexists; split; [done|left; by eexists]|by right|done]).
Qed.

(** X5: a handler that returns the error sentinel and a handler that throws
    it give the same result: [isError: true] with the sentinel's message, or
    with the default text when the message is missing or empty. *)
Theorem error_sentinel_returned_or_thrown t message :
  settle safeStringify t (Returned (TError message))
    = settle safeStringify t (Thrown (ExnToolError message))
  /\ settle safeStringify t (Returned (TError message))
     = mkCallToolResult
         [TextContent (JsString.opt_or_else message
                         "An error occurred during tool execution")]
         (Some true) None None
  /\ (message = None \/ message = Some "" ->
      content (settle safeStringify t (Returned (TError message)))
        = [TextContent "An error occurred during tool execution"]).
Proof. split_and!; [done..|]. by intros [->| ->]. Qed.

(** X6: when the handler of a registered tool returns a string, [tools/call]
    answers with that string as its only text block, without [isError] and
    without [structuredContent], even for a tool with an output schema; the
    [_meta] is that of the linked widget, if any. *)
Theorem tool_string_result srv ev uuid rpc t v handler text :
  rpc_post ev rpc ->
  rpc_method rpc = "tools/call" ->
  get_property (params_name (rpc_params rpc)) (entries (server_tools srv)) = Some t ->
  Tool_validate t (params_arguments (rpc_params rpc)) = Returned v ->
  tool_handler t = Some handler ->
  handler (mkToolPayload v ev (session_id ev uuid)) = Returned (TValue (JStr text)) ->
  handleMCP safeStringify builtins srv ev uuid
    = Respond (success (session_id ev uuid) (rpc_id rpc)
        (VCallTool (mkCallToolResult [TextContent text] None None
                      (toolMetadata <$> tool_widget t)))).
Proof.
  intros Hpost Hm Hget Hvalid Hhandler Hret.
  erewrite handleMCP_method; [|done|by rewrite Hm]. cbn.
  destruct (rpc_params rpc) as [nm args uri]. cbn in *.
  unfold request_handler. erewrite tools_call_validated; [|done..]. cbn.
  unfold Tool_call, invoke_tool_handler. rewrite Hhandler, Hret. cbn.
  unfold attach_widget. destruct (tool_widget t) as [w|]; [|done]. cbn.
  unfold with_widget_meta, spread, opt_meta. cbn. by rewrite (right_id_L ∅ (∪)).
Qed.

(** X7: a validation that throws an [MCPError] is answered with that very
    error, its code, message and data, by [tools/call] and by [prompts/get]
    alike. *)
Theorem validation_error_passed_through srv ev uuid rpc e :
  rpc_post ev rpc ->
  let nm := params_name (rpc_params rpc) in
  let args := params_arguments (rpc_params rpc) in
  let answer := handleMCP safeStringify builtins srv ev uuid in
  let expected :=
    Respond (mkResponse 400
               [("Content-Type", "application/json");
                ("Mcp-Session-Id", session_id ev uuid)]
               (BodyError (err_code e) (err_message e) (err_data e))) in
  (forall t,
      rpc_method rpc = "tools/call" ->
      get_property nm (entries (server_tools srv)) = Some t ->
      Tool_validate t args = Thrown (ExnMCPError e) ->
      answer = expected)
  /\ (forall p,
        rpc_method rpc = "prompts/get" ->
        get_property nm (entries (server_prompts srv)) = Some p ->
        Prompt_validate p args = Thrown (ExnMCPError e) ->
        answer = expected).
Proof.
  intros Hpost nm args answer expected. subst nm args answer expected.
  destruct (rpc_params rpc) as [nm args uri] eqn:Hparams. cbn. split.
  - intros t Hm Hget Hvalid.
    erewrite handleMCP_method; [|done|by rewrite Hm]. cbn. rewrite Hparams.
    unfold request_handler. erewrite tools_call_rejected; [|done..]. done.
  - intros p Hm Hget Hvalid.
    erewrite handleMCP_method; [|done|by rewrite Hm]. cbn. rewrite Hparams.
    unfold request_handler, handle_prompts_get. cbn.
    by rewrite (get_property_non_empty _ _ _ Hget), Hget, Hvalid.
Qed.

(** X8: a capability registered without a handler. A tool answers
    [tools/call] with the stringified [undefined] as a normal result; a
    prompt makes [prompts/get] throw, which the entry point answers with
    INTERNAL_ERROR; a resource answers a read with RESOURCE_NOT_FOUND. *)
Theorem capability_without_handler srv ev dom sid nm args uri :
  let this := new_MCPHandler srv ev dom sid in
  (forall t v,
      get_property nm (entries (server_tools srv)) = Some t ->
      tool_handler t = None ->
      Tool_validate t args = Returned v ->
      handle_tools_call safeStringify this (mkParams nm args uri)
        = Returned (HResult (VCallTool (attach_widget t
            (mkCallToolResult [TextContent (safeStringify JUndefined)] None
               (match tool_output t with
                | Some _ => Some JUndefined
                | None => None
                end) None)))))
  /\ (forall p v,
        get_property nm (entries (server_prompts srv)) = Some p ->
        prompt_handler p = None ->
        Prompt_validate p args = Returned v ->
        handle_prompts_get this (mkParams nm args uri) = Thrown TypeError
        /\ respond sid JNull (handle_prompts_get this (mkParams nm args uri))
           = Respond (errorResponse (inl INTERNAL_ERROR) sid))
  /\ (forall r,
        resource_handler r = None ->
        Resource_call r uri sid
          = Returned (HError (mcpError RESOURCE_NOT_FOUND None None))).
Proof.
  intros this. subst this. split_and!.
  - intros t v Hget Hnone Hvalid. erewrite tools_call_validated; [|done..].
    unfold Tool_call, invoke_tool_handler. by rewrite Hnone.
  - intros p v Hget Hnone Hvalid.
    assert (handle_prompts_get (new_MCPHandler srv ev dom sid) (mkParams nm args uri)
            = Thrown TypeError) as ->; [|done].
    unfold handle_prompts_get. cbn.
    rewrite (get_property_non_empty _ _ _ Hget), Hget, Hvalid. cbn.
    unfold Prompt_call. by rewrite Hnone.
  - intros r Hnone. unfold Resource_call. by rewrite Hnone.
Qed.

End ToolResults.

(** ** Schemas and descriptors *)

Section Descriptors.

Variable safeStringify : JSValue -> string.
Variable builtins : RequestEvent -> NativeOutcome.

(** X9: [toJsonSchema] returns the vendor's JSON schema exactly when the
    vendor is one of the four supported ones and the root of the schema is an
    object; an unknown vendor and a non-object root throw two different
    errors, the unknown vendor first. *)
Theorem toJsonSchema_cases schema :
  (In (vendor schema) supported_vendors
   /\ schema_type (vendor_json schema) = "object"
   /\ toJsonSchema schema = Returned (vendor_json schema))
  \/ (In (vendor schema) supported_vendors
      /\ schema_type (vendor_json schema) <> "object"
      /\ toJsonSchema schema = Thrown (ExnError "Schema is not an object"))
  \/ (~ In (vendor schema) supported_vendors
      /\ toJsonSchema schema
         = Thrown (ExnError "Unsupported schema validation library")).
Proof.
  unfold toJsonSchema, supported_vendors.
  destruct (decide (vendor schema = "effect")) as [He|He];
    [|destruct (decide (vendor schema = "zod")) as [Hz|Hz];
      [|destruct (decide (vendor schema = "valibot")) as [Hv|Hv];
        [|destruct (decide (vendor schema = "arktype")) as [Ha|Ha]]]].
  5:{ right; right. split; [|done]. cbn. intros [?|[?|[?|[?|[]]]]]; congruence. }
  all: assert (In (vendor schema) ["arktype"; "valibot"; "zod"; "effect"]) as Hin
    by (cbn; eauto).
  all: destruct (decide (schema_type (vendor_json schema) = "object"));
    [left|right; left]; done.
Qed.

Lemma toJsonSchema_returns schema js :
  toJsonSchema schema = Returned js ->
  js = vendor_json schema /\ schema_type js = "object".
Proof.
  unfold toJsonSchema.
  destruct (if decide (vendor schema = "effect") then _ else _) as [js'|] eqn:Hjs;
    [|done].
  assert (js' = vendor_json schema) as ->.
  { repeat case_decide; congruence. }
  clear Hjs. cbn.
  destruct (decide (schema_type (vendor_json schema) = "object")); [|done].
  by intros [= <-].
Qed.

Lemma toJsonSchema_object schema js :
  toJsonSchema schema = Returned js -> schema_type js = "object".
Proof. by intros [_ ?]%toJsonSchema_returns. Qed.

Lemma defineTool_name nm t d : defineTool nm t = Returned d -> td_name d = nm.
Proof.
  unfold defineTool.
  destruct (match tool_output t with Some _ => _ | None => _ end); [|done].
  destruct (match tool_schema t with Some _ => _ | None => _ end); [|done].
  cbn. by intros [= <-].
Qed.

(** X10: a tool descriptor, when [defineTool] produces one, carries the
    name it was registered under and an input schema whose type is
    ["object"], also for a tool without input schema; an output schema, if
    listed, is an object schema too, and is listed exactly for the tools
    that declare one. *)
Theorem tool_descriptor_schemas nm t d :
  defineTool nm t = Returned d ->
  td_name d = nm
  /\ td_description d = tool_description t
  /\ schema_type (td_inputSchema d) = "object"
  /\ (tool_schema t = None -> td_inputSchema d = mkJsonSchema "object" None None)
  /\ (forall o, td_outputSchema d = Some o -> schema_type o = "object")
  /\ (td_outputSchema d = None <-> tool_output t = None).
Proof.
  unfold defineTool.
  destruct (tool_output t) as [output|]; cbn.
  - destruct (toJsonSchema output) as [o|] eqn:Ho; [|done]. cbn.
    destruct (tool_schema t) as [schema|]; cbn.
    + destruct (toJsonSchema schema) as [i|] eqn:Hi; [|done]. cbn.
      intros [= <-]. cbn. split_and!; try done.
      * by eapply toJsonSchema_object.
      * intros ? [= <-]. by eapply toJsonSchema_object.
    + intros [= <-]. cbn. split_and!; try done.
      intros ? [= <-]. by eapply toJsonSchema_object.
  - destruct (tool_schema t) as [schema|]; cbn.
    + destruct (toJsonSchema schema) as [i|] eqn:Hi; [|done]. cbn.
      intros [= <-]. cbn. split_and!; try done. by eapply toJsonSchema_object.
    + intros [= <-]. cbn. by split_and!.
Qed.

Lemma mapO_Forall2 {A B} (f : A -> Outcome B) xs ys :
  mapO f xs = Returned ys -> Forall2 (fun x y => f x = Returned y) xs ys.
Proof.
  revert ys. induction xs as [|x xs IH]; intros ys; cbn.
  - intros [= <-]. constructor.
  - destruct (f x) as [y|] eqn:Hx; [|done]. cbn.
    destruct (mapO f xs) as [ys'|]; [|done]. cbn.
    intros [= <-]. constructor; [done|]. by apply IH.
Qed.

Lemma mapO_Thrown {A B} (f : A -> Outcome B) xs x e :
  In x xs -> f x = Thrown e -> exists e', mapO f xs = Thrown e'.
Proof.
  induction xs as [|x' xs IH]; [done|]. intros [->|Hin] Hx; cbn.
  - rewrite Hx. by eexists.
  - destruct (f x'); [|by eexists]. cbn.
    destruct (IH Hin Hx) as [e' ->]. by eexists.
Qed.

(** X11: when [tools/list] succeeds it lists one descriptor per registered
    tool, in the order of the registry and under the registered names. *)
Theorem tools_list_names srv ev dom sid ds :
  handle_tools_list (new_MCPHandler srv ev dom sid)
    = Returned (HResult (VListTools ds)) ->
  map td_name ds = map fst (entries (server_tools srv))
  /\ List.length ds = List.length (entries (server_tools srv))
  /\ ds <> [].
Proof.
  unfold handle_tools_list. cbn.
  destruct (non_empty (server_tools srv)) eqn:Hne; [|done]. cbn.
  destruct (defineTools _) as [ds'|] eqn:Hds; [|done]. cbn. intros [= <-].
  apply mapO_Forall2 in Hds.
  assert (map td_name ds' = map fst (entries (server_tools srv))) as Hnames.
  { induction Hds as [|[k t] d l l' Hd _ IH]; [done|]. cbn.
    rewrite (defineTool_name _ _ _ Hd). by rewrite IH. }
  split_and!; [done|by rewrite <- (length_map td_name ds'), Hnames, length_map|].
  intros ->. by destruct (server_tools srv) as [[|? ?]|].
Qed.

(** X12: one registered tool whose schema cannot be converted makes the
    whole [tools/list] fail: the request is answered with INTERNAL_ERROR and
    no tool is listed. *)
Theorem tools_list_fails_on_bad_schema srv ev uuid rpc nm t schema e :
  rpc_post ev rpc ->
  rpc_method rpc = "tools/list" ->
  In (nm, t) (entries (server_tools srv)) ->
  tool_schema t = Some schema \/ tool_output t = Some schema ->
  toJsonSchema schema = Thrown e ->
  handleMCP safeStringify builtins srv ev uuid
    = Respond (errorResponse (inl INTERNAL_ERROR) (session_id ev uuid)).
Proof.
  intros Hpost Hm Hin Hschema Hthrown.
  erewrite handleMCP_method; [|done|by rewrite Hm]. cbn.
  unfold handle_tools_list. cbn. rewrite (In_non_empty _ _ Hin). cbn.
  assert (exists e', defineTool nm t = Thrown e') as [e' Hdef].
  { unfold defineTool. destruct Hschema as [Hs|Hs]; rewrite Hs.
    - destruct (tool_output t) as [output|]; cbn.
      + destruct (toJsonSchema output); cbn; [|by eexists].
        rewrite Hthrown. by eexists.
      + rewrite Hthrown. by eexists.
    - rewrite Hthrown. by eexists. }
  destruct (mapO_Thrown (fun '(key, t) => defineTool key t) _ (nm, t) e' Hin Hdef)
    as [e'' He''].
  unfold defineTools. by rewrite He''.
Qed.

End Descriptors.

(** ** Listings of resources and widgets *)

Section Listings.

Lemma defineResources_acc rs acc :
  fold_left (fun acc '(key, r) =>
               if negb (isTemplate (default "" (resource_uri r)))
               then (acc ++ [defineResource key r])%list else acc) rs acc
    = (acc ++ map (fun e => defineResource e.1 e.2)
                  (filter (fun e => templated e = false) rs))%list.
Proof.
  revert acc. induction rs as [|[k r] rs IH]; intros acc.
  - cbn. by rewrite app_nil_r.
  - cbn [fold_left]. rewrite IH, filter_cons.
    change (isTemplate (default "" (resource_uri r))) with (templated (k, r)).
    destruct (templated (k, r)) eqn:He; cbn [negb].
    + by rewrite decide_False by done.
    + rewrite decide_True by done. cbn. by rewrite <- app_assoc.
Qed.

Lemma defineResourceTemplates_acc rs acc :
  fold_left (fun acc '(key, r) =>
               if isTemplate (default "" (resource_uri r))
               then (acc ++ [defineResourceTemplate key r])%list else acc) rs acc
    = (acc ++ map (fun e => defineResourceTemplate e.1 e.2)
                  (filter (fun e => templated e = true) rs))%list.
Proof.
  revert acc. induction rs as [|[k r] rs IH]; intros acc.
  - cbn. by rewrite app_nil_r.
  - cbn [fold_left]. rewrite IH, filter_cons.
    change (isTemplate (default "" (resource_uri r))) with (templated (k, r)).
    destruct (templated (k, r)) eqn:He.
    + rewrite decide_True by done. cbn. by rewrite <- app_assoc.
    + by rewrite decide_False by done.
Qed.

(** X13: the two resource listings split the registry: a resource whose URI
    has a brace-delimited placeholder is listed as a template and only
    there, any other resource is listed as a plain resource and only there,
    each in registry order, so that the two listings together have as many
    entries as the registry. *)
Theorem resource_listings_partition (rs : list (string * Resource)) :
  defineResources rs
    = map (fun e => defineResource e.1 e.2)
          (filter (fun e => templated e = false) rs)
  /\ defineResourceTemplates rs
     = map (fun e => defineResourceTemplate e.1 e.2)
           (filter (fun e => templated e = true) rs)
  /\ (List.length (defineResources rs) + List.length (defineResourceTemplates rs)
      = List.length rs)%nat
  /\ (forall e, templated e = true
                <-> has_placeholder (default "" (resource_uri e.2))).
Proof.
  unfold defineResources, defineResourceTemplates.
  rewrite defineResources_acc, defineResourceTemplates_acc. cbn [app].
  split_and!; [done..| |intros e; apply isTemplate_spec].
  rewrite !length_map. induction rs as [|e rs IH]; [done|].
  rewrite !filter_cons. destruct (templated e) eqn:He; cbn.
  - rewrite decide_False by done. rewrite decide_True by done. cbn. lia.
  - rewrite decide_True by done. rewrite decide_False by done. cbn. lia.
Qed.

(** X25: [resources/list] never lists a resource whose configured URI is a
    template: every entry it returns is the descriptor of a registered
    resource without placeholder in its URI, or the descriptor of a
    registered widget. *)
Theorem resources_list_excludes_templates srv ev dom sid ds d :
  handle_resources_list (new_MCPHandler srv ev dom sid)
    = Returned (HResult (VListResources ds)) ->
  In d ds ->
  (exists key r,
      In (key, r) (entries (server_resources srv))
      /\ ~ has_placeholder (default "" (resource_uri r))
      /\ d = defineResource key r)
  \/ (exists key w,
        In (key, w) (entries (server_widgets srv))
        /\ d = defineResource (id w) (Widget_resource w dom)).
Proof.
  unfold handle_resources_list. cbn.
  destruct (negb _ && negb _); [done|]. intros [= <-] [Hd|Hd]%in_app_or.
  - left. destruct (non_empty (server_resources srv)); [|done].
    unfold defineResources in Hd. rewrite defineResources_acc in Hd.
    cbn [app] in Hd. apply in_map_iff in Hd as ([key r] & <- & Hin).
    apply list_elem_of_In, list_elem_of_filter in Hin as [Ht Hin].
    exists key, r. split_and!; [by apply list_elem_of_In| |done].
    by apply isTemplate_false.
  - right. destruct (non_empty (server_widgets srv)); [|done].
    unfold defineWidgets in Hd. apply in_map_iff in Hd as ([key w] & <- & Hin).
    by exists key, w.
Qed.

End Listings.

(** ** Reading widgets *)

Section WidgetReads.

Lemma prefix_split (p s : string) :
  String.prefix p s = true -> exists rest, s = p +:+ rest.
Proof.
  revert s. induction p as [|c p IH]; intros s; [by exists s|].
  destruct s as [|c' s]; [done|]. cbn.
  destruct (ascii_dec c c') as [<-|]; [|done].
  intros [rest ->]%IH. by exists rest.
Qed.

Lemma find_widget_scheme (rest : string) (widgets : list Widget) :
  find_widget ("widget://" +:+ rest) widgets
    = Returned (find (fun x => JsString.includes (id x) (uri_token rest)) widgets).
Proof.
  unfold find_widget. destruct widgets as [|x widgets]; [done|].
  rewrite split_widget_uri. by rewrite split_head.
Qed.

Lemma includes_empty (s : string) : JsString.includes s "" = true.
Proof. apply includes_prefix, prefix_empty. Qed.

Lemma uri_token_empty (rest : string) :
  rest = "" \/ String.prefix "." rest = true \/ String.prefix "//" rest = true ->
  uri_token rest = "".
Proof.
  unfold uri_token. intros [->|[H|H]]; [done|..];
    destruct rest as [|c rest]; try done; cbn [cut].
  - cbn [String.prefix] in H. destruct (ascii_dec "." c) as [<-|]; [|done].
    destruct (String.prefix "//" _); [done|]. cbn [cut].
    by rewrite (prefix_cons "." ""), prefix_empty.
  - by rewrite H.
Qed.

(** X14: a read of a [widget://] URI never throws and never reaches the
    resource registry: behind the gate, the answer is the document of the
    first widget whose identifier contains the token of the URI, or
    RESOURCE_NOT_FOUND; replacing the registered resources by any other
    non-empty registry, even one with a resource configured at that very
    URI, leaves the answer unchanged. *)
Theorem widget_scheme_read srv ev dom sid payload :
  JsString.startsWith (params_uri payload) "widget://" = true ->
  exists rest,
    params_uri payload = "widget://" +:+ rest
    /\ handle_resources_read (new_MCPHandler srv ev dom sid) payload
       = (if negb (non_empty (server_resources srv))
             && negb (non_empty (server_widgets srv))
          then method_not_found
          else match find (fun w => JsString.includes (id w) (uri_token rest))
                          (values (server_widgets srv)) with
               | Some w => Returned (HResult (VReadResource (Widget_result w dom)))
               | None => Returned (HError (mcpError RESOURCE_NOT_FOUND None None))
               end)
    /\ (forall resources,
          non_empty resources = non_empty (server_resources srv) ->
          handle_resources_read
            (new_MCPHandler (with_resources srv resources) ev dom sid) payload
          = handle_resources_read (new_MCPHandler srv ev dom sid) payload).
Proof.
  intros Hscheme. destruct (prefix_split _ _ Hscheme) as [rest Hrest].
  exists rest. split; [done|].
  assert (forall srv',
    handle_resources_read (new_MCPHandler srv' ev dom sid) payload
    = (if negb (non_empty (server_resources srv'))
          && negb (non_empty (server_widgets srv'))
       then method_not_found
       else match find (fun w => JsString.includes (id w) (uri_token rest))
                       (values (server_widgets srv')) with
            | Some w => Returned (HResult (VReadResource (Widget_result w dom)))
            | None => Returned (HError (mcpError RESOURCE_NOT_FOUND None None))
            end)) as Hread.
  { intros srv'. unfold handle_resources_read. cbn.
    destruct (negb _ && negb _); [done|].
    rewrite Hscheme, Hrest, find_widget_scheme. cbn. by destruct (find _ _). }
  split; [apply Hread|].
  intros resources Hsame. rewrite !Hread. cbn. by rewrite Hsame.
Qed.

(** X15: a [widget://] URI whose token is empty (nothing after the scheme,
    or a rest that starts with ["."] or ["//"]) is answered with the document
    of the first registered widget, whatever its identifier. *)
Theorem empty_token_first_widget srv ev dom sid nm args rest key w ws :
  entries (server_widgets srv) = (key, w) :: ws ->
  rest = "" \/ String.prefix "." rest = true \/ String.prefix "//" rest = true ->
  handle_resources_read (new_MCPHandler srv ev dom sid)
                        (mkParams nm args ("widget://" +:+ rest))
    = Returned (HResult (VReadResource (Widget_result w dom))).
Proof.
  intros Hentries Hrest. unfold handle_resources_read. cbn.
  assert (non_empty (server_widgets srv) = true) as ->.
  { apply (In_non_empty (key, w)). rewrite Hentries. by left. }
  rewrite andb_false_r. unfold JsString.startsWith.
  rewrite prefix_append, find_widget_scheme, (uri_token_empty _ Hrest).
  unfold values. rewrite Hentries. cbn. by rewrite includes_empty.
Qed.

(** X16: every registered widget is listed by [resources/list] under its
    identifier, with the URI ["widget://" + id + ".js"] and the MIME type
    [text/html+skybridge], and a read of the listed URI succeeds with a
    widget document. *)
Theorem listed_widget_is_readable srv ev dom sid key w nm args :
  In (key, w) (entries (server_widgets srv)) ->
  let this := new_MCPHandler srv ev dom sid in
  exists ds d,
    handle_resources_list this = Returned (HResult (VListResources ds))
    /\ In d ds
    /\ rd_name d = id w
    /\ rd_uri d = "widget://" +:+ id w +:+ ".js"
    /\ rd_mimeType d = Some "text/html+skybridge"
    /\ exists w',
         handle_resources_read this (mkParams nm args (rd_uri d))
           = Returned (HResult (VReadResource (Widget_result w' dom)))
         /\ In w' (values (server_widgets srv)).
Proof.
  intros Hin this. subst this.
  pose proof (In_non_empty _ _ Hin) as Hne.
  eexists _, (defineResource (id w) (Widget_resource w dom)).
  split_and!.
  - unfold handle_resources_list. cbn. rewrite Hne, andb_false_r. reflexivity.
  - apply in_or_app. right. unfold defineWidgets.
    apply (in_map (fun '(_, w0) => defineResource (id w0) (Widget_resource w0 dom))
                  _ (key, w) Hin).
  - done.
  - done.
  - done.
  - assert (In w (values (server_widgets srv))) as Hw.
    { unfold values. by apply (in_map snd _ (key, w)). }
    destruct (find_exists (fun x => JsString.includes (id x) (id_token (id w)))
                _ w Hw (id_token_included (id w))) as (w' & Hfind & _ & Hw').
    exists w'. split; [|done].
    assert (rd_uri (defineResource (id w) (Widget_resource w dom))
            = "widget://" +:+ id w +:+ ".js") as -> by done.
    unfold handle_resources_read. cbn. rewrite Hne, andb_false_r.
    unfold JsString.startsWith.
    rewrite prefix_append, find_widget_by_token. cbn. by rewrite Hfind.
Qed.

End WidgetReads.

(** ** Prompts *)

Section PromptFacts.

(** X17: the descriptor of a prompt lists one argument per property of its
    schema, in the order of the properties; an argument is required exactly
    when its name is in the schema's required list; a prompt without schema
    has no argument; and the descriptor fails to exist only when the schema
    cannot be converted. *)
Theorem prompt_descriptor_arguments nm p :
  (prompt_schema p = None ->
   definePrompt nm p
     = Returned (mkPromptDescriptor nm (prompt_description p) []))
  /\ (forall schema d,
        prompt_schema p = Some schema ->
        definePrompt nm p = Returned d ->
        let js := vendor_json schema in
        pd_name d = nm
        /\ pd_description d = prompt_description p
        /\ map pa_name (pd_arguments d) = map fst (default [] (schema_properties js))
        /\ (forall a, In a (pd_arguments d) ->
              (pa_required a = true
               <-> exists required, schema_required js = Some required
                                    /\ In (pa_name a) required)))
  /\ (forall schema e,
        prompt_schema p = Some schema ->
        toJsonSchema schema = Thrown e ->
        definePrompt nm p = Thrown e).
Proof.
  unfold definePrompt. split; [|split].
  - by intros ->.
  - intros schema d -> Hd.
    destruct (toJsonSchema schema) as [js|] eqn:Hjs; [|done].
    apply toJsonSchema_returns in Hjs as [-> _].
    cbn in Hd. injection Hd as <-. cbn.
    split_and!; [done..| |].
    + rewrite map_map. apply map_ext. by intros [k v].
    + intros a [[k v] [<- _]]%in_map_iff. cbn.
      destruct (schema_required (vendor_json schema)) as [required|]; cbn.
      * split.
        -- intros (r & Hr & ->%String.eqb_eq)%existsb_exists. by exists required.
        -- intros (required' & [= <-] & Hin). apply existsb_exists.
           exists k. split; [done|]. apply String.eqb_refl.
      * split; [done|]. by intros (? & ? & _).
  - by intros schema e -> ->.
Qed.

(** X18: [prompts/get] on a registered prompt whose input validates: the
    handler receives the validated input; a message it returns becomes the
    single message of the result, with the role ["assistant"] when the
    handler gives none; an [MCPError] it returns is returned as it is; and
    what it throws is thrown further. *)
Theorem prompt_get_shapes srv ev dom sid nm args uri p v handler :
  get_property nm (entries (server_prompts srv)) = Some p ->
  Prompt_validate p args = Returned v ->
  prompt_handler p = Some handler ->
  let returned := handler (mkPromptPayload v sid) in
  let answer :=
    handle_prompts_get (new_MCPHandler srv ev dom sid) (mkParams nm args uri) in
  (forall description role text,
      returned = Returned (PMessage description role text) ->
      answer = Returned (HResult (VGetPrompt (mkGetPromptResult description
                 [mkPromptMessage text (JsString.opt_or_else role "assistant")])))
      /\ (role = None \/ role = Some "" ->
          JsString.opt_or_else role "assistant" = "assistant"))
  /\ (forall e, returned = Returned (PError e) -> answer = Returned (HError e))
  /\ (forall err, returned = Thrown err -> answer = Thrown err).
Proof.
  intros Hget Hvalid Hhandler returned answer. subst returned answer.
  unfold handle_prompts_get. cbn.
  rewrite (get_property_non_empty _ _ _ Hget), Hget, Hvalid. cbn.
  unfold Prompt_call. rewrite Hhandler. split_and!.
  - intros description role text ->. split; [done|]. by intros [->| ->].
  - by intros e ->.
  - by intros err ->.
Qed.

End PromptFacts.

(** ** Resources *)

Section ResourceReads.

Variable safeStringify : JSValue -> string.
Variable builtins : RequestEvent -> NativeOutcome.

(** X19: an exception thrown by the handler of the resource that a read
    dispatches to, be it found by its exact URI or by the template
    fallback, is not turned into a result: the read is answered with
    INTERNAL_ERROR and its default message, whatever was thrown, an
    [MCPError] included. *)
Theorem resource_exception_internal_error srv ev uuid rpc pre r post handler err :
  rpc_post ev rpc ->
  rpc_method rpc = "resources/read" ->
  let uri := params_uri (rpc_params rpc) in
  let rs := values (server_resources srv) in
  JsString.startsWith uri "widget://" = false ->
  rs = (pre ++ r :: post)%list ->
  (Forall (fun r0 => resource_uri r0 <> Some uri) pre
   /\ resource_uri r = Some uri)
  \/ (Forall (fun r0 => resource_uri r0 <> Some uri) rs
      /\ Forall (fun r0 => ~ has_placeholder (default "" (resource_uri r0))) pre
      /\ has_placeholder (default "" (resource_uri r))) ->
  resource_handler r = Some handler ->
  handler (mkResourcePayload uri (session_id ev uuid)) = Thrown err ->
  handleMCP safeStringify builtins srv ev uuid
    = Respond (errorResponse (inl INTERNAL_ERROR) (session_id ev uuid))
  /\ errorResponse (inl INTERNAL_ERROR) (session_id ev uuid)
     = mkResponse 400 [("Content-Type", "application/json");
                       ("Mcp-Session-Id", session_id ev uuid)]
         (BodyError (mcpErrors INTERNAL_ERROR) "Internal error" None).
Proof.
  intros Hpost Hm uri rs Hscheme Hvalues Hfound Hhandler Hthrown.
  split; [|done].
  erewrite handleMCP_method; [|done|by rewrite Hm]. cbn.
  unfold request_handler.
  rewrite resources_read_gate;
    [|by rewrite (values_non_empty _ _ _ _ Hvalues)|done].
  fold uri rs.
  assert (Resource_call r uri (session_id ev uuid) = Thrown err) as Hcall.
  { unfold Resource_call. by rewrite Hhandler, Hthrown. }
  destruct Hfound as [[Hpre Huri]|(Hnone & Hpre & Htemplate)].
  - erewrite find_first; [|exact Hvalues| |by apply bool_decide_eq_true].
    2:{ eapply Forall_impl; [exact Hpre|]. intros r0 ?.
        by apply bool_decide_eq_false. }
    by rewrite Hcall.
  - rewrite find_nothing.
    2:{ eapply Forall_impl; [exact Hnone|]. intros r0 ?.
        by apply bool_decide_eq_false. }
    erewrite find_first; [|exact Hvalues| |by apply isTemplate_spec].
    2:{ eapply Forall_impl; [exact Hpre|]. intros r0 ?. by apply isTemplate_false. }
    by rewrite Hcall.
Qed.

(** X20: a resource registered with a non-empty URI that is not a template
    and not a [widget://] one is listed by [resources/list] under its
    registry key and that URI, and a read of the listed URI is served by a
    registered resource configured with that URI. *)
Theorem listed_resource_is_readable srv ev dom sid key r u nm args :
  In (key, r) (entries (server_resources srv)) ->
  resource_uri r = Some u ->
  u <> "" ->
  isTemplate u = false ->
  JsString.startsWith u "widget://" = false ->
  let this := new_MCPHandler srv ev dom sid in
  exists ds d,
    handle_resources_list this = Returned (HResult (VListResources ds))
    /\ In d ds /\ rd_name d = key /\ rd_uri d = u
    /\ exists r',
         In r' (values (server_resources srv))
         /\ resource_uri r' = Some u
         /\ handle_resources_read this (mkParams nm args u) = Resource_call r' u sid.
Proof.
  intros Hin Huri Hne Htemplate Hscheme this. subst this.
  pose proof (In_non_empty _ _ Hin) as Hres.
  eexists _, (defineResource key r). split_and!.
  - unfold handle_resources_list. cbn. rewrite Hres. cbn. reflexivity.
  - apply in_or_app. left. unfold defineResources.
    rewrite defineResources_acc. cbn [app].
    apply in_map_iff. exists (key, r). split; [done|].
    apply list_elem_of_In, list_elem_of_filter. split.
    + unfold templated. cbn. by rewrite Huri.
    + by apply list_elem_of_In.
  - done.
  - unfold defineResource. cbn. rewrite Huri. cbn. unfold JsString.or_else.
    by case_decide.
  - assert (In r (values (server_resources srv))) as Hr.
    { unfold values. by apply (in_map snd _ (key, r)). }
    destruct (find_exists
                (fun r0 => bool_decide (resource_uri r0 = Some u)) _ r Hr)
      as (r' & Hfind & Hr' & Hin'); [by apply bool_decide_eq_true|].
    apply bool_decide_eq_true in Hr'.
    exists r'. split_and!; [done..|].
    rewrite resources_read_gate; [|by rewrite Hres|done]. cbn.
    by rewrite Hfind.
Qed.

(** X21: the template test of resources.ts holds exactly of the URIs with a
    brace-delimited placeholder; it is kept by any text put before and after
    such a URI, and it fails on every URI without a brace. *)
Theorem template_test_meaning (uri : string) :
  (isTemplate uri = true <-> has_placeholder uri)
  /\ (forall pre post,
        isTemplate uri = true -> isTemplate (pre +:+ uri +:+ post) = true)
  /\ (no_brace uri = true -> isTemplate uri = false).
Proof.
  split_and!.
  - apply isTemplate_spec.
  - intros pre post (p & mid & q & -> & Hmid)%isTemplate_spec.
    apply isTemplate_spec. exists (pre +:+ p), mid, (q +:+ post).
    split; [|done]. by rewrite !append_assoc.
  - unfold isTemplate.
    assert (forall open, no_brace uri = true -> template_scan open uri = false)
      as H; [|apply H].
    induction uri as [|c uri IH]; intros open; [done|]. cbn.
    intros [[Ho Hc]%andb_prop Hrest]%andb_prop.
    apply negb_true_iff in Ho, Hc. rewrite Ho, Hc. auto.
Qed.

End ResourceReads.

(** ** Data URLs *)

Section DataUrls.

Local Open Scope N_scope.

Lemma value_digit (n : N) : n < 64 -> Atob.value (Base64.digit n) = Some n.
Proof.
  intros Hn. destruct n as [|p]; [done|].
  do 6 (try destruct p as [p|p|]); try done; lia.
Qed.

Lemma digit_not_pad (n : N) : n < 64 -> Atob.is_pad (Base64.digit n) = false.
Proof.
  intros Hn. destruct n as [|p]; [done|].
  do 6 (try destruct p as [p|p|]); try done; lia.
Qed.

Lemma byte_bound (b : byte) : Byte.to_N b < 256.
Proof. pose proof (Byte.to_N_bounded b). lia. Qed.

Lemma of_N_to_N (b : byte) (n : N) : n = Byte.to_N b -> Byte.of_N n = Some b.
Proof. intros ->. apply Byte.of_to_N. Qed.

Local Ltac euclid := Z.to_euclidean_division_equations; lia.

Lemma first_byte (x y : N) :
  x < 256 -> y < 256 -> x / 4 * 4 + ((x mod 4) * 16 + y / 16) / 16 = x.
Proof. zify. euclid. Qed.

Lemma second_byte (x y z : N) :
  x < 256 -> y < 256 -> z < 256 ->
  ((x mod 4) * 16 + y / 16) mod 16 * 16 + ((y mod 16) * 4 + z / 64) / 4 = y.
Proof. zify. euclid. Qed.

Lemma third_byte (y z : N) :
  y < 256 -> z < 256 -> ((y mod 16) * 4 + z / 64) mod 4 * 64 + z mod 64 = z.
Proof. zify. euclid. Qed.

Lemma digit_bounds (x y z : N) :
  x < 256 -> y < 256 -> z < 256 ->
  x / 4 < 64 /\ (x mod 4) * 16 + y / 16 < 64
  /\ (y mod 16) * 4 + z / 64 < 64 /\ z mod 64 < 64.
Proof. zify. euclid. Qed.

Lemma three_step_ind (P : list byte -> Prop) :
  P [] -> (forall a, P [a]) -> (forall a b, P [a; b]) ->
  (forall a b c rest, P rest -> P (a :: b :: c :: rest)) ->
  forall l, P l.
Proof.
  intros H0 H1 H2 H3 l.
  assert (P l /\ (forall a, P (a :: l)) /\ (forall a b, P (a :: b :: l))) as [? _];
    [|done].
  induction l as [|c l (IH0 & IH1 & IH2)]; [done|].
  split; [apply IH1|split; [intros a; apply IH2|intros a b; by apply H3]].
Qed.

Lemma atob_group (a b c : byte) (rest : string) (tail : list byte) :
  Atob.atob rest = Some tail ->
  Atob.atob (Base64.str
               [Base64.digit (Byte.to_N a / 4);
                Base64.digit ((Byte.to_N a mod 4) * 16 + Byte.to_N b / 16);
                Base64.digit ((Byte.to_N b mod 16) * 4 + Byte.to_N c / 64);
                Base64.digit (Byte.to_N c mod 64)] rest)
    = Some (a :: b :: c :: tail).
Proof.
  intros Htail.
  pose proof (byte_bound a) as Ha. pose proof (byte_bound b) as Hb.
  pose proof (byte_bound c) as Hc.
  destruct (digit_bounds _ _ _ Ha Hb Hc) as (H1 & H2 & H3 & H4).
  cbn [Base64.str fold_right Atob.atob].
  rewrite !value_digit, !digit_not_pad by done. cbn [mbind option_bind andb].
  rewrite (of_N_to_N a _ (first_byte _ _ Ha Hb)). cbn [mbind option_bind].
  rewrite (of_N_to_N b _ (second_byte _ _ _ Ha Hb Hc)). cbn [mbind option_bind].
  rewrite (of_N_to_N c _ (third_byte _ _ Hb Hc)). cbn [mbind option_bind].
  by rewrite Htail.
Qed.

(** [btoa] is inverted by the base64 decoder, and its output is four
    characters long for every three bytes begun. *)
Lemma btoa_round_trip (bs : list byte) :
  Atob.atob (Base64.btoa bs) = Some bs
  /\ String.length (Base64.btoa bs) = (4 * ((List.length bs + 2) / 3))%nat.
Proof.
  induction bs as [|a|a b|a b c rest [IH Hlen]] using three_step_ind.
  - done.
  - split; [|done].
    pose proof (byte_bound a) as Ha.
    destruct (digit_bounds _ _ _ Ha Ha Ha) as (H1 & _ & _ & _).
    assert ((Byte.to_N a mod 4) * 16 < 64) as H2 by (zify; euclid).
    cbn [Base64.btoa Base64.str fold_right Atob.atob].
    rewrite !value_digit by done. cbn [mbind option_bind].
    assert (Byte.to_N a / 4 * 4 + (Byte.to_N a mod 4) * 16 / 16 = Byte.to_N a)
      as Hx by (zify; euclid).
    by rewrite (of_N_to_N a _ Hx).
  - split; [|done].
    pose proof (byte_bound a) as Ha. pose proof (byte_bound b) as Hb.
    destruct (digit_bounds _ _ _ Ha Hb Hb) as (H1 & H2 & _ & _).
    assert ((Byte.to_N b mod 16) * 4 < 64) as H3 by (zify; euclid).
    cbn [Base64.btoa Base64.str fold_right Atob.atob].
    rewrite !value_digit, !digit_not_pad by done. cbn [mbind option_bind andb].
    rewrite (of_N_to_N a _ (first_byte _ _ Ha Hb)). cbn [mbind option_bind].
    assert (((Byte.to_N a mod 4) * 16 + Byte.to_N b / 16) mod 16 * 16
            + (Byte.to_N b mod 16) * 4 / 4 = Byte.to_N b) as Hy by (zify; euclid).
    by rewrite (of_N_to_N b _ Hy).
  - split.
    + cbn [Base64.btoa]. by apply atob_group.
    + cbn [Base64.btoa Base64.str fold_right String.length List.length].
      rewrite Hlen.
      replace (S (S (S (List.length rest))) + 2)%nat
        with (List.length rest + 2 + 1 * 3)%nat by lia.
      rewrite Nat.div_add by done. lia.
Qed.

(** X22: [toDataUrl] hands a string back as it is, without prefix and
    without encoding; a binary value becomes ["data:" + mimeType +
    ";base64,"] followed by a payload of four characters for every three
    bytes begun of the encoded bytes, which the base64 decoder turns back
    into them.  The encoded bytes are those of the [ArrayBuffer], [Blob] or
    [File], and for a [Uint8Array] all the bytes of [data.buffer]: the
    payload decodes to the array's own bytes exactly when these are the
    whole buffer, as they are when the array views its buffer from offset 0
    to its end, and two [Uint8Array]s over one buffer get one data URL
    whatever part of it they view.  Two binary values with the same data
    URL have the same encoded bytes. *)
Theorem data_url_shapes (mimeType : string) :
  (forall s, toDataUrl (DataString s) mimeType = s)
  /\ (forall b,
        exists payload,
          toDataUrl (DataBinary b) mimeType
            = "data:" +:+ mimeType +:+ ";base64," +:+ payload
          /\ Atob.atob payload = Some (binary_bytes b)
          /\ String.length payload
             = (4 * ((List.length (binary_bytes b) + 2) / 3))%nat
          /\ (Atob.atob payload = Some (view_bytes b)
              <-> view_bytes b = binary_bytes b))
  /\ (forall b, whole_buffer b -> view_bytes b = binary_bytes b)
  /\ (forall buffer byteOffset length byteOffset' length',
        toDataUrl (DataBinary (BinUint8Array buffer byteOffset length)) mimeType
        = toDataUrl (DataBinary (BinUint8Array buffer byteOffset' length')) mimeType)
  /\ (forall b b',
        toDataUrl (DataBinary b) mimeType = toDataUrl (DataBinary b') mimeType ->
        binary_bytes b = binary_bytes b').
Proof.
  assert (forall b, toDataUrl (DataBinary b) mimeType
                    = "data:" +:+ mimeType +:+ ";base64,"
                      +:+ Base64.btoa (binary_bytes b)) as Hurl
    by (by intros []).
  split; [done|]. split; [|split; [|split; [done|]]].
  - intros b. exists (Base64.btoa (binary_bytes b)).
    destruct (btoa_round_trip (binary_bytes b)) as [Hdec Hlen].
    split; [apply Hurl|]. split; [exact Hdec|]. split; [exact Hlen|].
    rewrite Hdec. split; [intros H; by injection H|by intros ->].
  - intros [bytes|buffer byteOffset length|bytes|bytes]; cbn; try done.
    intros [-> ->]. by rewrite drop_0, firstn_all.
  - intros b b'. rewrite !Hurl. intros H.
    do 3 apply (inj (String.app _)) in H.
    apply (f_equal Atob.atob) in H.
    rewrite !(proj1 (btoa_round_trip _)) in H. by injection H.
Qed.

(** A [Uint8Array] of one byte in the middle of a buffer of three: the data
    URL carries the three bytes of the buffer, not the byte of the array. *)
Example data_url_of_partial_view :
  let data := BinUint8Array ["a"; "b"; "c"]%byte 1 1 in
  view_bytes data = ["b"%byte]
  /\ toDataUrl (DataBinary data) "text/plain" = "data:text/plain;base64,YWJj"
  /\ Atob.atob "YWJj" = Some ["a"; "b"; "c"]%byte.
Proof. by vm_compute. Qed.

End DataUrls.

(** ** Method paths *)

Section MethodPaths.

Variable safeStringify : JSValue -> string.
Variable builtins : RequestEvent -> NativeOutcome.

Lemma walk_app t (pre post : list string) :
  walk t (pre ++ post) = (t' <~ walk t pre ;; walk t' post).
Proof.
  revert t. induction pre as [|k pre IH]; intros t; [done|]. cbn.
  destruct (step t k); [apply IH|done].
Qed.

Lemma get_property_unmentioned key props :
  mentions key (Obj props) = false -> get_property key props = None.
Proof.
  induction props as [|[k v] props IH]; [done|]. cbn.
  intros [[Hk _]%orb_false_elim Hrest]%orb_false_elim. rewrite Hk. by apply IH.
Qed.

Lemma get_property_mentions key k props v :
  mentions key (Obj props) = false ->
  get_property k props = Some v -> mentions key v = false.
Proof.
  induction props as [|[k' v'] props IH]; [done|]. cbn.
  intros [[_ Hv']%orb_false_elim Hrest]%orb_false_elim.
  destruct (String.eqb k' k); [by intros [= <-]|by apply IH].
Qed.

Lemma inherited_by_function_object key :
  inherited_by_function key = false -> inherited_by_object key = false.
Proof. unfold inherited_by_function. by intros [_ ?]%orb_false_elim. Qed.

Lemma step_unmentioned key t :
  mentions key t = false -> inherited_by_function key = false ->
  is_object t = true -> step t key = Returned t.
Proof.
  destruct t as [props|fname arity m| | |]; try done.
  - intros H Hinherited _. cbn [step].
    rewrite (get_property_unmentioned _ _ H).
    by rewrite (inherited_by_function_object _ Hinherited).
  - cbn. by intros [-> ->]%orb_false_elim -> _.
Qed.

Lemma step_mentions key k t t' :
  mentions key t = false -> step t k = Returned t' -> mentions key t' = false.
Proof.
  destruct t as [props|fname arity m| | |]; try done.
  - intros H. cbn [step]. destruct (get_property k props) as [v|] eqn:Hv.
    + intros [= <-]. by eapply get_property_mentions.
    + intros [= <-]. by destruct (inherited_by_object k).
  - intros H. cbn [step]. intros [= <-].
    destruct (String.eqb k "length"); [done|].
    destruct (String.eqb k "name"); [done|].
    by destruct (inherited_by_function k).
  - by intros _ [= <-].
Qed.

Lemma walk_mentions key keys t t' :
  mentions key t = false -> walk t keys = Returned t' -> mentions key t' = false.
Proof.
  revert t. induction keys as [|k keys IH]; intros t Ht; cbn.
  - by intros [= <-].
  - destruct (step t k) as [t1|] eqn:Hstep; [|done]. cbn.
    apply IH. by eapply step_mentions.
Qed.

Lemma walk_from_other t keys t' :
  is_object t = false -> walk t keys = Returned t' -> is_object t' = false.
Proof.
  revert t. induction keys as [|k keys IH]; intros t Ht; cbn.
  - by intros [= <-].
  - destruct t; try done. cbn. by apply IH.
Qed.

(** A segment that names nothing in the table and nothing that objects and
    functions inherit can be put anywhere in a path that resolves to an
    object or a function of the table: the path resolves as before. *)
Lemma walk_skips_unknown key pre post v :
  mentions key mpcHandler = false ->
  inherited_by_function key = false ->
  is_object v = true ->
  walk mpcHandler (pre ++ post) = Returned v ->
  walk mpcHandler (pre ++ key :: post) = Returned v.
Proof.
  intros Hkey Hinherited Hv. rewrite !walk_app.
  destruct (walk mpcHandler pre) as [t|] eqn:Hpre; [|done]. cbn.
  intros Hpost. destruct (is_object t) eqn:Ht.
  - rewrite step_unmentioned; [done| |done..]. by eapply walk_mentions.
  - rewrite (walk_from_other _ _ _ Ht Hpost) in Hv. done.
Qed.

(** X23: segments of the method that name nothing in the handler table,
    and nothing that objects and functions inherit from the built-in
    prototypes, are skipped, not rejected: a request whose method is a valid
    path with such a segment put anywhere in it (an empty segment or a
    made-up name) is dispatched to the handler of the valid path. *)
Theorem unknown_segment_skipped srv ev uuid rpc key pre post fname arity m :
  rpc_post ev rpc ->
  JsString.split (rpc_method rpc) "/" = (pre ++ key :: post)%list ->
  mentions key mpcHandler = false ->
  inherited_by_function key = false ->
  walk mpcHandler (pre ++ post) = Returned (Fn fname arity m) ->
  handleMCP safeStringify builtins srv ev uuid
    = respond (session_id ev uuid) (rpc_id rpc)
        (call_method safeStringify (request_handler srv ev uuid) m (rpc_params rpc)).
Proof.
  intros Hpost Hsplit Hkey Hinherited Hwalk.
  eapply handleMCP_method; [done|]. rewrite Hsplit.
  by apply walk_skips_unknown.
Qed.




(** A segment after [length] or [name] makes the entry point reject: the
    [in] test throws outside the [try]. *)
Example segment_after_length_uncaught srv uuid params :
  handleMCP safeStringify builtins srv (Sample.post "tools/call/length/x" params) uuid
    = Uncaught TypeError.
Proof. done. Qed.

(** A segment that a function inherits leads into the built-in objects:
    the answer is the runtime's. *)
Example inherited_segment_native srv uuid params :
  handleMCP safeStringify builtins srv (Sample.post "ping/bind" params) uuid
    = match builtins (Sample.post "ping/bind" params) with
      | NativeThrows e => Uncaught e
      | NativeFalsy => Respond (errorResponse (inl METHOD_NOT_FOUND) "s-1")
      | NativeCalled settled => respond "s-1" (JNum 1) settled
      end.
Proof. cbn. by destruct (builtins _) as [?| |[[?|?]|?]]. Qed.

End MethodPaths.

(** ** Component names *)

Section ComponentNames.

Import Validators.

Lemma all_chars_map (P Q : ascii -> bool) (f : ascii -> ascii) (s : string) :
  (forall c, P c = true -> Q (f c) = true) ->
  all_chars P s = true -> all_chars Q (map_chars f s) = true.
Proof.
  intros Hf. induction s as [|c s IH]; [done|]. cbn.
  intros [Hc Hs]%andb_prop. by rewrite (Hf _ Hc), IH.
Qed.

Lemma all_chars_hyphenate (P : ascii -> bool) (s : string) :
  P "-"%char = true -> all_chars P s = true -> all_chars P (hyphenate s) = true.
Proof.
  intros Hhyphen. induction s as [|c s IH]; [done|].
  cbn [all_chars]. intros [Hc Hs]%andb_prop. specialize (IH Hs).
  cbn [hyphenate]. destruct s as [|c' s]; [cbn; by rewrite Hc|].
  destruct (is_lower c && is_upper c'); cbn [all_chars];
    by rewrite Hc, ?Hhyphen, IH.
Qed.

Lemma is_identifier_part (name : string) :
  is_identifier name = true -> all_chars identifier_part name = true.
Proof.
  destruct name as [|c rest]; [done|]. cbn.
  intros [Hc ->]%andb_prop. unfold identifier_part. by rewrite Hc.
Qed.

Lemma all_chars_weaken (P Q : ascii -> bool) (s : string) :
  (forall c, P c = true -> Q c = true) ->
  all_chars P s = true -> all_chars Q s = true.
Proof.
  intros HPQ. induction s as [|c s IH]; [done|]. cbn.
  intros [Hc Hs]%andb_prop. by rewrite (HPQ _ Hc), IH.
Qed.

Lemma underscore_step (c : ascii) :
  (identifier_part c || Ascii.eqb c "-") = true ->
  (kebab_char (if Ascii.eqb c "_" then "-"%char else c)
   || is_upper (if Ascii.eqb c "_" then "-"%char else c)) = true.
Proof. by destruct c as [[] [] [] [] [] [] [] []]. Qed.

Lemma lower_step (c : ascii) :
  (kebab_char c || is_upper c) = true -> kebab_char (to_lower c) = true.
Proof. by destruct c as [[] [] [] [] [] [] [] []]. Qed.

Lemma kebab_char_fixed (c : ascii) :
  kebab_char c = true ->
  is_upper c = false
  /\ to_lower (if Ascii.eqb c "_" then "-"%char else c) = c.
Proof. by destruct c as [[] [] [] [] [] [] [] []]. Qed.

Lemma kebab_fixed (s : string) :
  all_chars kebab_char s = true -> toKebabCase s = s.
Proof.
  unfold toKebabCase, underscores_to_hyphens.
  induction s as [|c s IH]; [done|]. cbn [all_chars].
  intros [Hc Hs]%andb_prop. specialize (IH Hs).
  destruct (kebab_char_fixed _ Hc) as [Hupper Hfix].
  cbn [hyphenate]. destruct s as [|c' s].
  - cbn. by rewrite Hfix.
  - cbn [all_chars] in Hs. apply andb_prop in Hs as [Hc' _].
    destruct (kebab_char_fixed _ Hc') as [Hupper' _].
    rewrite Hupper', andb_false_r. cbn [map_chars]. by rewrite Hfix, IH.
Qed.

(** X24: the kebab-cased form of a valid component name consists of
    lower-case letters, digits, [-] and [$] only, so it has no upper-case
    letter and no underscore left, and converting it again changes
    nothing. *)
Theorem kebab_case_of_valid_name (name : string) :
  validateComponentName name = Valid ->
  all_chars kebab_char (toKebabCase name) = true
  /\ toKebabCase (toKebabCase name) = toKebabCase name.
Proof.
  unfold validateComponentName. case_bool_decide; [done|].
  destruct (is_identifier name) eqn:Hname; [|done]. intros _.
  assert (all_chars kebab_char (toKebabCase name) = true) as Hkebab.
  { unfold toKebabCase, underscores_to_hyphens.
    apply (all_chars_map (fun c => kebab_char c || is_upper c) _ _ _ lower_step).
    apply (all_chars_map (fun c => identifier_part c || Ascii.eqb c "-") _ _ _
             underscore_step).
    apply all_chars_hyphenate; [done|].
    apply (all_chars_weaken identifier_part); [by intros c ->|].
    by apply is_identifier_part. }
  split; [done|]. by apply kebab_fixed.
Qed.

End ComponentNames.

(** ** Names that the registries inherit *)

Section RegistryNames.

Variable safeStringify : JSValue -> string.
Variable builtins : RequestEvent -> NativeOutcome.

(** X27: a name that no tool (no prompt) is registered under, but that the
    registry inherits from [Object.prototype] ([constructor], [toString],
    [__proto__], ...), is not answered like an unknown name when the server
    has tools (prompts): [tools/call] answers INVALID_PARAMS and
    [prompts/get] answers INTERNAL_ERROR, each with the default message and
    status 400; every other unregistered name is answered
    METHOD_NOT_FOUND. *)
Theorem inherited_name_lookup srv ev uuid rpc :
  let name := params_name (rpc_params rpc) in
  let sid := session_id ev uuid in
  rpc_post ev rpc ->
  (rpc_method rpc = "tools/call" ->
   non_empty (server_tools srv) = true ->
   get_property name (entries (server_tools srv)) = None ->
   handleMCP safeStringify builtins srv ev uuid
     = Respond (errorResponse
                  (inl (if inherited_by_object name
                        then INVALID_PARAMS else METHOD_NOT_FOUND)) sid))
  /\ (rpc_method rpc = "prompts/get" ->
      non_empty (server_prompts srv) = true ->
      get_property name (entries (server_prompts srv)) = None ->
      handleMCP safeStringify builtins srv ev uuid
        = Respond (errorResponse
                     (inl (if inherited_by_object name
                           then INTERNAL_ERROR else METHOD_NOT_FOUND)) sid)).
Proof.
  intros name sid Hpost. split; intros Hmethod Hsome Hnone.
  - rewrite (handleMCP_method safeStringify builtins srv ev uuid rpc
               "call" 1%nat tools_call Hpost); [|by rewrite Hmethod].
    unfold call_method, handle_tools_call.
    cbn [hasTools request_handler new_MCPHandler server]. fold name.
    rewrite Hsome, Hnone. cbn [negb].
    by destruct (inherited_by_object name).
  - rewrite (handleMCP_method safeStringify builtins srv ev uuid rpc
               "get" 1%nat prompts_get Hpost); [|by rewrite Hmethod].
    unfold call_method, handle_prompts_get.
    cbn [hasPrompts request_handler new_MCPHandler server]. fold name.
    rewrite Hsome, Hnone. cbn [negb].
    by destruct (inherited_by_object name).
Qed.

End RegistryNames.

(** ** The further properties at the sample servers *)

(** X6 at the tool [hello], which declares an output schema and returns a
    string. *)
Lemma tool_string_witness :
  handleMCP stringify builtins_throw Demo.server (Demo.on (Demo.call "hello")) "uuid"
    = Respond (success "uuid" (JNum 7)
        (VCallTool (mkCallToolResult [TextContent "Hello Ada"] None None None))).
Proof.
  apply (tool_string_result stringify builtins_throw Demo.server (Demo.on (Demo.call "hello"))
           "uuid" (Demo.call "hello") Demo.hello (JObj [("name", JStr "Ada")])
           (fun _ => Returned (TValue (JStr "Hello Ada"))) "Hello Ada");
    [by split_and!|reflexivity..].
Defined.

(** X7 at the tool and the prompt registered as [guarded]. *)
Lemma validation_error_witness :
  handleMCP stringify builtins_throw Demo.server (Demo.on (Demo.call "guarded")) "uuid"
    = Respond (mkResponse 400
        [("Content-Type", "application/json"); ("Mcp-Session-Id", "uuid")]
        (BodyError (mcpErrors INVALID_PARAMS) "name is required"
                   (Some (JObj [("field", JStr "name")]))))
  /\ handleMCP stringify builtins_throw Demo.server (Demo.on (Demo.get_prompt "guarded")) "uuid"
     = Respond (mkResponse 400
         [("Content-Type", "application/json"); ("Mcp-Session-Id", "uuid")]
         (BodyError (mcpErrors INVALID_PARAMS) "name is required"
                    (Some (JObj [("field", JStr "name")])))).
Proof.
  split.
  - apply (proj1 (validation_error_passed_through stringify builtins_throw Demo.server
                    (Demo.on (Demo.call "guarded")) "uuid" (Demo.call "guarded")
                    Demo.name_required ltac:(by split_and!))
             Demo.guarded eq_refl eq_refl eq_refl).
  - apply (proj2 (validation_error_passed_through stringify builtins_throw Demo.server
                    (Demo.on (Demo.get_prompt "guarded")) "uuid"
                    (Demo.get_prompt "guarded")
                    Demo.name_required ltac:(by split_and!))
             Demo.guarded_prompt eq_refl eq_refl eq_refl).
Defined.

(** X8 at the capabilities registered as [silent]. *)
Lemma capability_without_handler_witness :
  handle_tools_call stringify Demo.handler (mkParams "silent" JNull "")
    = Returned (HResult (VCallTool
        (mkCallToolResult [TextContent "[value]"] None None None)))
  /\ handle_prompts_get Demo.handler (mkParams "silent" JNull "") = Thrown TypeError
  /\ Resource_call Demo.silent_resource "" "uuid"
     = Returned (HError (mcpError RESOURCE_NOT_FOUND None None)).
Proof.
  pose proof (capability_without_handler stringify Demo.server
                (Demo.on (Demo.call "hello")) "https://app.example" "uuid"
                "silent" JNull "") as (Htool & Hprompt & Hresource).
  split_and!.
  - apply (Htool Demo.silent JUndefined eq_refl eq_refl eq_refl).
  - apply (proj1 (Hprompt Demo.silent_prompt JUndefined eq_refl eq_refl eq_refl)).
  - apply (Hresource Demo.silent_resource eq_refl).
Defined.

(** X10 at the tool [hello]. *)
Lemma tool_descriptor_witness :
  exists d,
    defineTool "hello" Demo.hello = Returned d
    /\ td_name d = "hello"
    /\ td_description d = "says hello"
    /\ schema_type (td_inputSchema d) = "object"
    /\ (forall o, td_outputSchema d = Some o -> schema_type o = "object").
Proof.
  eexists. split; [reflexivity|].
  destruct (tool_descriptor_schemas "hello" Demo.hello _ eq_refl)
    as (? & ? & ? & _ & ? & _).
  by split_and!.
Defined.

(** X11 at the sample server. *)
Lemma tools_list_names_witness :
  exists ds,
    handle_tools_list Demo.handler = Returned (HResult (VListTools ds))
    /\ map td_name ds = ["hello"; "guarded"; "silent"]
    /\ List.length ds = 3%nat.
Proof.
  eexists. split; [reflexivity|].
  destruct (tools_list_names Demo.server (Demo.on (Demo.call "hello"))
              "https://app.example" "uuid" _ eq_refl) as (? & ? & _).
  by split.
Defined.

(** X12 at the server with the tool [legacy], whose schema comes from an
    unknown vendor. *)
Lemma tools_list_fails_witness :
  handleMCP stringify builtins_throw Demo.legacy_server
            (Demo.on (mkRPCRequest "tools/list" no_params JNull)) "uuid"
    = Respond (errorResponse (inl INTERNAL_ERROR) "uuid").
Proof.
  apply (tools_list_fails_on_bad_schema stringify builtins_throw Demo.legacy_server
           (Demo.on (mkRPCRequest "tools/list" no_params JNull)) "uuid"
           (mkRPCRequest "tools/list" no_params JNull)
           "legacy" Demo.legacy Demo.foreign
           (ExnError "Unsupported schema validation library"));
    [by split_and!|done|right; by left|by left|done].
Defined.

(** X14 at the sample server: the URI of the widget [greeting] is answered
    with the first widget whose identifier contains ["greeting"]. *)
Lemma widget_scheme_witness :
  exists rest,
    "widget://greeting.js" = "widget://" +:+ rest
    /\ handle_resources_read Demo.handler (Sample.read "widget://greeting.js")
       = Returned (HResult (VReadResource
           (Widget_result my_greeting "https://app.example")))
    /\ handle_resources_read
         (new_MCPHandler (with_resources Demo.server (Some [("counter", counter)]))
            (Demo.on (Demo.call "hello")) "https://app.example" "uuid")
         (Sample.read "widget://greeting.js")
       = handle_resources_read Demo.handler (Sample.read "widget://greeting.js").
Proof.
  destruct (widget_scheme_read Demo.server (Demo.on (Demo.call "hello"))
              "https://app.example" "uuid" (Sample.read "widget://greeting.js")
              eq_refl) as (rest & Hrest & Hread & Hsame).
  exists rest. split_and!; [done| |by apply Hsame].
  unfold Demo.handler. rewrite Hread.
  apply (inj (String.app "widget://") "greeting.js" rest) in Hrest as <-.
  done.
Defined.

(** X15 at the sample server: the bare scheme reads the first widget. *)
Lemma empty_token_witness :
  handle_resources_read Demo.handler (Sample.read "widget://")
    = Returned (HResult (VReadResource
        (Widget_result my_greeting "https://app.example")))
  /\ handle_resources_read Demo.handler (Sample.read "widget://.js")
     = Returned (HResult (VReadResource
         (Widget_result my_greeting "https://app.example"))).
Proof.
  split.
  - apply (empty_token_first_widget Demo.server (Demo.on (Demo.call "hello"))
             "https://app.example" "uuid" "" JUndefined ""
             "myGreetingWidget" my_greeting [("greetingWidget", greeting)]
             eq_refl (or_introl eq_refl)).
  - apply (empty_token_first_widget Demo.server (Demo.on (Demo.call "hello"))
             "https://app.example" "uuid" "" JUndefined ".js"
             "myGreetingWidget" my_greeting [("greetingWidget", greeting)]
             eq_refl (or_intror (or_introl eq_refl))).
Defined.

(** X16 at the widget [greeting] of the sample server. *)
Lemma listed_widget_witness :
  exists ds d,
    handle_resources_list Demo.handler = Returned (HResult (VListResources ds))
    /\ In d ds
    /\ rd_name d = "greeting"
    /\ rd_uri d = "widget://greeting.js"
    /\ rd_mimeType d = Some "text/html+skybridge"
    /\ exists w',
         handle_resources_read Demo.handler (mkParams "" JUndefined (rd_uri d))
           = Returned (HResult (VReadResource (Widget_result w' "https://app.example")))
         /\ In w' (values (server_widgets Demo.server)).
Proof.
  apply (listed_widget_is_readable Demo.server (Demo.on (Demo.call "hello"))
           "https://app.example" "uuid" "greetingWidget" greeting "" JUndefined).
  right. by left.
Defined.

(** X17 at the prompt [topic], whose schema has the properties [topic]
    (required) and [tone]. *)
Lemma prompt_descriptor_witness :
  exists d,
    definePrompt "topic" Demo.topic = Returned d
    /\ pd_name d = "topic"
    /\ map pa_name (pd_arguments d) = ["topic"; "tone"]
    /\ map pa_required (pd_arguments d) = [true; false].
Proof.
  eexists. split; [reflexivity|].
  destruct (proj1 (proj2 (prompt_descriptor_arguments "topic" Demo.topic))
              Demo.accepting _ eq_refl eq_refl) as (? & _ & ? & _).
  by split_and!.
Defined.

(** X18 at the prompt [topic], whose handler gives no role. *)
Lemma prompt_get_witness :
  handle_prompts_get Demo.handler (mkParams "topic" (JObj [("topic", JStr "tea")]) "")
    = Returned (HResult (VGetPrompt (mkGetPromptResult None
        [mkPromptMessage "Write about it." "assistant"]))).
Proof.
  apply (proj1 (prompt_get_shapes Demo.server (Demo.on (Demo.call "hello"))
                  "https://app.example" "uuid" "topic"
                  (JObj [("topic", JStr "tea")]) "" Demo.topic
                  (JObj [("topic", JStr "tea")])
                  (fun _ => Returned (PMessage None None "Write about it."))
                  eq_refl eq_refl eq_refl) None None "Write about it." eq_refl).
Defined.

(** X19 at the resource [broken], found by its URI, and at the templated
    resource [broken_template], reached by the fallback; both handlers throw
    an [MCPError]. *)
Lemma resource_exception_witness :
  handleMCP stringify builtins_throw Demo.server
            (Demo.on (Demo.read "file:///broken")) "uuid"
    = Respond (errorResponse (inl INTERNAL_ERROR) "uuid")
  /\ handleMCP stringify builtins_throw Demo.template_server
               (Demo.on (Demo.read "mailto:nobody")) "uuid"
     = Respond (errorResponse (inl INTERNAL_ERROR) "uuid").
Proof.
  split.
  - apply (resource_exception_internal_error stringify builtins_throw Demo.server
             (Demo.on (Demo.read "file:///broken")) "uuid"
             (Demo.read "file:///broken")
             [readme; user_file] Demo.broken []
             (fun _ => Thrown (ExnMCPError Demo.name_required))
             (ExnMCPError Demo.name_required));
      [by split_and!|done|done|done| |done..].
    left. split; [by repeat constructor|done].
  - apply (resource_exception_internal_error stringify builtins_throw
             Demo.template_server
             (Demo.on (Demo.read "mailto:nobody")) "uuid"
             (Demo.read "mailto:nobody")
             [readme] Demo.broken_template []
             (fun _ => Thrown (ExnMCPError Demo.name_required))
             (ExnMCPError Demo.name_required));
      [by split_and!|done|done|done| |done..].
    right. split_and!.
    + by repeat constructor.
    + repeat constructor. by apply isTemplate_false.
    + by apply isTemplate_spec.
Defined.

(** X20 at the resource [readme] of the sample server. *)
Lemma listed_resource_witness :
  exists ds d,
    handle_resources_list Demo.handler = Returned (HResult (VListResources ds))
    /\ In d ds /\ rd_name d = "readme" /\ rd_uri d = "file:///readme"
    /\ exists r',
         In r' (values (server_resources Demo.server))
         /\ resource_uri r' = Some "file:///readme"
         /\ handle_resources_read Demo.handler (mkParams "" JUndefined "file:///readme")
            = Resource_call r' "file:///readme" "uuid".
Proof.
  apply (listed_resource_is_readable Demo.server (Demo.on (Demo.call "hello"))
           "https://app.example" "uuid" "readme" readme "file:///readme"
           "" JUndefined); [by left|done..].
Defined.

(** X22 at a [Uint8Array] over the whole of a buffer of three bytes, and at
    an [ArrayBuffer] and a [Blob] with one data URL. *)
Lemma data_url_witness :
  let whole := BinUint8Array ["a"; "b"; "c"]%byte 0 3 in
  (whole_buffer whole /\ view_bytes whole = binary_bytes whole)
  /\ (toDataUrl (DataBinary (BinArrayBuffer ["a"; "b"; "c"]%byte)) "text/plain"
      = toDataUrl (DataBinary (BinBlob ["a"; "b"; "c"]%byte)) "text/plain"
      /\ binary_bytes (BinArrayBuffer ["a"; "b"; "c"]%byte)
         = binary_bytes (BinBlob ["a"; "b"; "c"]%byte)).
Proof.
  split.
  - split; [by split|].
    apply (proj1 (proj2 (proj2 (data_url_shapes "text/plain")))). by split.
  - split; [reflexivity|].
    apply (proj2 (proj2 (proj2 (proj2 (data_url_shapes "text/plain"))))).
    reflexivity.
Defined.

(** X23: [tools//call], with an empty segment, and [v1/tools/call] are
    dispatched like [tools/call]. *)
Lemma unknown_segment_witness :
  handleMCP stringify builtins_throw Demo.server
            (Demo.on (mkRPCRequest "tools//call" (rpc_params (Demo.call "hello")) (JNum 7)))
            "uuid"
    = handleMCP stringify builtins_throw Demo.server (Demo.on (Demo.call "hello")) "uuid"
  /\ handleMCP stringify builtins_throw Demo.server
               (Demo.on (mkRPCRequest "v1/tools/call" (rpc_params (Demo.call "hello")) (JNum 7)))
               "uuid"
     = handleMCP stringify builtins_throw Demo.server (Demo.on (Demo.call "hello")) "uuid".
Proof.
  split.
  - rewrite (unknown_segment_skipped stringify builtins_throw Demo.server
               (Demo.on (mkRPCRequest "tools//call" (rpc_params (Demo.call "hello")) (JNum 7)))
               "uuid"
               (mkRPCRequest "tools//call" (rpc_params (Demo.call "hello")) (JNum 7))
               "" ["tools"] ["call"] "call" 1%nat tools_call
               ltac:(by split_and!) eq_refl eq_refl eq_refl eq_refl).
    done.
  - rewrite (unknown_segment_skipped stringify builtins_throw Demo.server
               (Demo.on (mkRPCRequest "v1/tools/call" (rpc_params (Demo.call "hello")) (JNum 7)))
               "uuid"
               (mkRPCRequest "v1/tools/call" (rpc_params (Demo.call "hello")) (JNum 7))
               "v1" [] ["tools"; "call"] "call" 1%nat tools_call
               ltac:(by split_and!) eq_refl eq_refl eq_refl eq_refl).
    done.
Defined.

(** X24 at the names of the documentation of [toKebabCase]. *)
Lemma kebab_case_witness :
  Validators.toKebabCase "TestComponent" = "test-component"
  /\ Validators.toKebabCase "test_component" = "test-component"
  /\ Validators.all_chars Validators.kebab_char
       (Validators.toKebabCase "TestComponent") = true
  /\ Validators.toKebabCase (Validators.toKebabCase "TestComponent")
     = Validators.toKebabCase "TestComponent".
Proof.
  destruct (kebab_case_of_valid_name "TestComponent" eq_refl) as [? ?].
  by split_and!.
Defined.

(** X25 at the sample server: the templated resource [user_file] is not
    among the listed resources. *)
Lemma resources_list_witness :
  (exists key r,
      In (key, r) (entries (server_resources Demo.server))
      /\ ~ has_placeholder (default "" (resource_uri r))
      /\ defineResource "readme" readme = defineResource key r)
  \/ (exists key w,
        In (key, w) (entries (server_widgets Demo.server))
        /\ defineResource "readme" readme
           = defineResource (id w) (Widget_resource w "https://app.example")).
Proof.
  apply (resources_list_excludes_templates Demo.server (Demo.on (Demo.call "hello"))
           "https://app.example" "uuid" _ (defineResource "readme" readme) eq_refl).
  by left.
Defined.


(** X27 at the sample server: a call of the tool [constructor] and a get of
    the prompt [toString], which are not registered, and a call of the tool
    [nothing]. *)
Lemma inherited_name_witness :
  handleMCP stringify builtins_throw Demo.server
            (Demo.on (Demo.call "constructor")) "uuid"
    = Respond (errorResponse (inl INVALID_PARAMS) "uuid")
  /\ handleMCP stringify builtins_throw Demo.server
               (Demo.on (Demo.get_prompt "toString")) "uuid"
     = Respond (errorResponse (inl INTERNAL_ERROR) "uuid")
  /\ handleMCP stringify builtins_throw Demo.server
               (Demo.on (Demo.call "nothing")) "uuid"
     = Respond (errorResponse (inl METHOD_NOT_FOUND) "uuid").
Proof.
  split_and!.
  - apply (proj1 (inherited_name_lookup stringify builtins_throw Demo.server
                    (Demo.on (Demo.call "constructor")) "uuid"
                    (Demo.call "constructor") ltac:(by split_and!))
             eq_refl eq_refl eq_refl).
  - apply (proj2 (inherited_name_lookup stringify builtins_throw Demo.server
                    (Demo.on (Demo.get_prompt "toString")) "uuid"
                    (Demo.get_prompt "toString") ltac:(by split_and!))
             eq_refl eq_refl eq_refl).
  - apply (proj1 (inherited_name_lookup stringify builtins_throw Demo.server
                    (Demo.on (Demo.call "nothing")) "uuid"
                    (Demo.call "nothing") ltac:(by split_and!))
             eq_refl eq_refl eq_refl).
Defined.
